(** * SHARK-Turbine, sd_inference: scheduler export and scheduler runner

    A shallow embedding of
      turbine_models/custom_models/sd_inference/schedulers.py
      turbine_models/custom_models/sd_inference/schedulers_runner.py

    Python exceptions are an error type, the objects the scripts mutate
    (the scheduler, the process trace) are threaded explicitly, and the
    external collaborators (torch scalars, the diffusers scheduler and UNet,
    the IREE toolchain, [utils]) are type-class parameters. *)

From Stdlib Require Import ZArith Ascii String List Floats Lia.
From stdpp Require Import base list gmap strings.

Local Open Scope string_scope.

(** ** Python exceptions and results *)

Inductive exn : Type :=
| KeyError (key : string)
| NameError (name : string)
| TypeError (msg : string)
| ValueError (msg : string)
| RuntimeError (msg : string)
| AssertionError.

Inductive result (A : Type) : Type :=
| Ok (a : A)
| Raise (e : exn).
Arguments Ok {A} a.
Arguments Raise {A} e.

Definition is_Ok {A} (r : result A) : Prop := ∃ a, r = Ok a.

(** ** The part of torch the two scripts use

    A tensor is its shape and its elements in row-major order. *)

Module Torch.

Record Tensor (A : Type) : Type := mkTensor { shape : list nat; data : list A }.
Arguments mkTensor {A} shape data.
Arguments shape {A} t.
Arguments data {A} t.

Definition numel (s : list nat) : nat := foldr Nat.mul 1%nat s.

Definition tensor_wf {A} (t : Tensor A) : Prop := length (data t) = numel (shape t).

Section Structure.
Context {A : Type}.

(** [rows k n d]: the first [n] consecutive pieces of [k] elements of [d]. *)
Fixpoint rows (k n : nat) (d : list A) : list (list A) :=
  match n with
  | O => []
  | S n' => take k d :: rows k n' (drop k d)
  end.

(** [for t in tensor]: [Tensor.__iter__] is [iter(self.unbind(0))]. *)
Definition tensor_iter (t : Tensor A) : result (list (Tensor A)) :=
  match shape t with
  | [] => Raise (TypeError "iteration over a 0-d tensor")
  | n :: rest => Ok (mkTensor rest <$> rows (numel rest) n (data t))
  end.

(** [t.unsqueeze(0)] *)
Definition unsqueeze0 (t : Tensor A) : Tensor A :=
  mkTensor (1%nat :: shape t) (data t).

Definition tail_shape (t : Tensor A) : option (list nat) :=
  match shape t with [] => None | _ :: rest => Some rest end.

Definition dim0 (t : Tensor A) : nat :=
  match shape t with [] => 0%nat | n :: _ => n end.

Definition is_legacy_empty (t : Tensor A) : bool :=
  bool_decide (shape t = [0%nat]).

(** [torch.cat(tensors)] along dimension 0.  One-dimensional empty tensors
    are skipped, as torch does. *)
Definition torch_cat (tensors : list (Tensor A)) : result (Tensor A) :=
  match tensors with
  | [] => Raise (RuntimeError "torch.cat(): expected a non-empty list of Tensors")
  | _ =>
    match filter (λ t, is_legacy_empty t = false) tensors with
    | [] => Ok (mkTensor [0%nat] [])
    | t0 :: ts =>
      match tail_shape t0 with
      | None => Raise (RuntimeError "zero-dimensional tensor cannot be concatenated")
      | Some rest =>
        if forallb (λ t, bool_decide (tail_shape t = Some rest)) ts
        then Ok (mkTensor (foldr Nat.add 0%nat (dim0 <$> (t0 :: ts)) :: rest)
                          (concat (data <$> (t0 :: ts))))
        else Raise (RuntimeError "Sizes of tensors must match except in dimension 0")
      end
    end
  end.

(** [Tensor.split(split_size)] along dimension 0 for a tensor of [n] rows
    of [k] elements each; [fuel] bounds the number of pieces. *)
Fixpoint split_rows (rest : list nat) (split_size fuel n : nat) (d : list A)
  : list (Tensor A) :=
  match fuel with
  | O => []
  | S fuel' =>
    if (n =? 0)%nat then []
    else
      let m := Nat.min split_size n in
      mkTensor (m :: rest) (take (m * numel rest) d)
      :: split_rows rest split_size fuel' (n - m) (drop (m * numel rest) d)
  end.

(** [t.chunk(chunks)] along dimension 0. *)
Definition torch_chunk (t : Tensor A) (chunks : nat) : result (list (Tensor A)) :=
  match shape t with
  | [] => Raise (RuntimeError "chunk expects at least a 1-dimensional tensor")
  | n :: rest =>
    if (chunks =? 0)%nat
    then Raise (RuntimeError "chunk expects `chunks` to be greater than 0")
    else
      let split_size := ((n + chunks - 1) / chunks)%nat in
      if (n =? 0)%nat
      then Ok (replicate chunks (mkTensor (0%nat :: rest) []))
      else Ok (split_rows rest split_size n n (data t))
  end.

(** [a, b = xs] *)
Definition unpack2 {B} (xs : list B) : result (B * B) :=
  match xs with
  | [a; b] => Ok (a, b)
  | [] | [_] => Raise (ValueError "not enough values to unpack (expected 2)")
  | _ => Raise (ValueError "too many values to unpack (expected 2)")
  end.

(** Broadcasting of two shapes, aligned on the last dimension. *)
Fixpoint broadcast_rev (s1 s2 : list nat) : option (list nat) :=
  match s1, s2 with
  | [], s | s, [] => Some s
  | a :: r1, b :: r2 =>
    match broadcast_rev r1 r2 with
    | None => None
    | Some r =>
      if (a =? b)%nat then Some (a :: r)
      else if (a =? 1)%nat then Some (b :: r)
      else if (b =? 1)%nat then Some (a :: r)
      else None
    end
  end.

Definition broadcast_shapes (s1 s2 : list nat) : option (list nat) :=
  reverse <$> broadcast_rev (reverse s1) (reverse s2).

Definition pad_shape (rank : nat) (s : list nat) : list nat :=
  replicate (rank - length s) 1%nat ++ s.

(** The elements of a tensor of shape [from] expanded to shape [to]
    (same rank; a dimension of size 1 is repeated). *)
Fixpoint expand_data (from to : list nat) (d : list A) : list A :=
  match from, to with
  | a :: from', b :: to' =>
    let pieces := expand_data from' to' <$> rows (numel from') a d in
    if (a =? b)%nat then concat pieces
    else concat (replicate b (default [] (head pieces)))
  | _, _ => d
  end.

(** [op(t1, t2)] elementwise, with broadcasting. *)
Definition tensor_map2 (op : A → A → A) (t1 t2 : Tensor A) : result (Tensor A) :=
  match broadcast_shapes (shape t1) (shape t2) with
  | None =>
    Raise (RuntimeError "The size of tensor a must match the size of tensor b")
  | Some s =>
    Ok (mkTensor s
          (zip_with op
             (expand_data (pad_shape (length s) (shape t1)) s (data t1))
             (expand_data (pad_shape (length s) (shape t2)) s (data t2))))
  end.

(** [op(t, scalar)] elementwise. *)
Definition tensor_map (f : A → A) (t : Tensor A) : Tensor A :=
  mkTensor (shape t) (f <$> data t).
End Structure.

(** [torch.rand] on the sizes [sizes]: the elements come from the generator stream
    [rng], read from position [pos]. *)
Definition torch_rand {A} (rng : nat → A) (pos : nat) (sizes : list Z)
  : result (Tensor A) :=
  if forallb (λ z, (0 <=? z)%Z) sizes
  then let s := Z.to_nat <$> sizes in
       Ok (mkTensor s (rng <$> seq pos (numel s)))
  else Raise (RuntimeError "Trying to create tensor with negative dimension").

End Torch.
Export Torch.

(** ** External collaborators

    Nothing below is implemented in the two scripts: each class is the
    capability set the scripts call into. *)

(** Elements of a float tensor.  No algebraic law is assumed of the
    operations; [of_float] converts a Python float to the tensor's dtype. *)
Class Scalar (F : Type) : Type := {
  fadd : F → F → F;
  fsub : F → F → F;
  fmul : F → F → F;
  of_float : float → F;
}.

(** A diffusers scheduler object with internal state [St]. *)
Class SchedulerMixin (F Time St : Type) : Type := {
  set_timesteps : Z → St → result St;
  init_noise_sigma : St → F;
  timesteps : St → Tensor Time;
  scale_model_input : Tensor F → Tensor Time → St → result (Tensor F * St);
  step : Tensor F → Tensor Time → Tensor F → St → result (Tensor F * St);
}.

(** [diffusers.UNet2DConditionModel] *)
Class UNet2DConditionModel (F Time UNet : Type) : Type := {
  from_pretrained : string → string → result UNet;
  unet_forward : UNet → Tensor F → Tensor Time → Tensor F → result (Tensor F);
}.

(** An instance of the class [Scheduler(torch.nn.Module)] that both scripts
    declare: its attributes. *)
Record SchedulerModule (St UNet : Type) : Type := mkSchedulerModule {
  scheduler : St;
  unet : UNet;
  guidance_scale : float;
}.
Arguments mkSchedulerModule {St UNet} scheduler unet guidance_scale.
Arguments scheduler {St UNet} s.
Arguments unet {St UNet} s.
Arguments guidance_scale {St UNet} s.

(** [turbine_models...sd_inference.utils], [shark_turbine.aot],
    [turbine_tank], [vmfbRunner] and the random generator.  The two scripts
    call these functions and do not define them; they are parameters here. *)
Class Toolchain (F St UNet Vmfb : Type) : Type := {
  get_schedulers : string → result (gmap string St);
  largest_error : Tensor F → Tensor F → result float;
  create_safe_name : string → string → string;
  save_external_weights :
    SchedulerModule St UNet → option string → option string → result unit;
  get_mlir_module :
    SchedulerModule St UNet → bool → list Z → list Z → string → result string;
  compile_to_vmfb :
    string → option string → option string → option string → string → result unit;
  abspath : string → string;
  uploadToBlobStorage : string → string → result unit;
  vmfbRunner : string → string → string → result Vmfb;
  compiled_scheduler_main : Vmfb → Tensor F → Tensor F → result (Tensor F);
  rng : nat → F;
}.

(** ** The process: trace of calls into the collaborators, generator position *)

Inductive event (F Time : Type) : Type :=
| EvGetSchedulers (hf_model_name : string)
| EvSetTimesteps (num_inference_steps : Z)
| EvUNetFromPretrained (hf_model_name : string)
| EvInitNoiseSigma
| EvScaleModelInput (sample : Tensor F) (timestep : Tensor Time)
| EvUNetForward (sample : Tensor F) (timestep : Tensor Time) (ehs : Tensor F)
| EvSchedulerStep (noise_pred : Tensor F) (timestep : Tensor Time) (latents : Tensor F)
| EvTorchRand (sizes : list Z)
| EvSaveExternalWeights
| EvGetMlirModule (sample_sizes ehs_sizes : list Z) (import_to : string)
| EvOpenFile (path : string)
| EvWriteFile (path : string) (contents : string)
| EvUpload (src dst : string)
| EvCompileToVmfb
| EvVmfbRunner (device vmfb_path : string)
| EvCompiledMain (sample ehs : Tensor F)
| EvLargestError
| EvPrint (label : string)
| EvPrintLargestError (err : float).
Arguments EvGetSchedulers {F Time}.
Arguments EvSetTimesteps {F Time}.
Arguments EvUNetFromPretrained {F Time}.
Arguments EvInitNoiseSigma {F Time}.
Arguments EvScaleModelInput {F Time}.
Arguments EvUNetForward {F Time}.
Arguments EvSchedulerStep {F Time}.
Arguments EvTorchRand {F Time}.
Arguments EvSaveExternalWeights {F Time}.
Arguments EvGetMlirModule {F Time}.
Arguments EvOpenFile {F Time}.
Arguments EvWriteFile {F Time}.
Arguments EvUpload {F Time}.
Arguments EvCompileToVmfb {F Time}.
Arguments EvVmfbRunner {F Time}.
Arguments EvCompiledMain {F Time}.
Arguments EvLargestError {F Time}.
Arguments EvPrint {F Time}.
Arguments EvPrintLargestError {F Time}.

Record World (F Time : Type) : Type := mkWorld {
  trace : list (event F Time);
  rng_pos : nat;
}.
Arguments mkWorld {F Time} trace rng_pos.
Arguments trace {F Time} w.
Arguments rng_pos {F Time} w.

Definition world0 {F Time} : World F Time := mkWorld [] 0.

(** A Python computation: it may raise, and the trace survives the raise. *)
Definition Py (F Time A : Type) : Type := World F Time → result A * World F Time.

Section Monad.
Context {F Time : Type}.

Definition ret {A} (a : A) : Py F Time A := λ w, (Ok a, w).

Definition bind {A B} (m : Py F Time A) (k : A → Py F Time B) : Py F Time B :=
  λ w, match m w with
       | (Ok a, w') => k a w'
       | (Raise e, w') => (Raise e, w')
       end.

Definition raise {A} (e : exn) : Py F Time A := λ w, (Raise e, w).

Definition lift {A} (r : result A) : Py F Time A := λ w, (r, w).

Definition emit (e : event F Time) : Py F Time unit :=
  λ w, (Ok tt, mkWorld (trace w ++ [e]) (rng_pos w)).

(** Reading a global name that may not have been assigned. *)
Definition read_name {A} (name : string) (v : option A) : Py F Time A :=
  match v with
  | Some a => ret a
  | None => raise (NameError name)
  end.

(** [d[key]] on a dict *)
Definition getitem {A} (d : gmap string A) (key : string) : Py F Time A :=
  match d !! key with
  | Some a => ret a
  | None => raise (KeyError key)
  end.

(** [torch.rand] on the sizes [sizes], advancing the generator. *)
Definition rand (gen : nat → F) (sizes : list Z) : Py F Time (Tensor F) :=
  λ w, let w1 := mkWorld (trace w ++ [EvTorchRand sizes]) (rng_pos w) in
       match torch_rand gen (rng_pos w) sizes with
       | Ok t => (Ok t, mkWorld (trace w1) (rng_pos w + numel (shape t)))
       | Raise e => (Raise e, w1)
       end.
End Monad.

Notation "x <- m ;; k" := (bind m (λ x, k))
  (at level 100, m at next level, right associativity).
Notation "m ;; k" := (bind m (λ _, k))
  (at level 100, right associativity).

(** Python truthiness of an optional string argument. *)
Definition truthy (s : option string) : bool :=
  match s with
  | None => false
  | Some s => negb (String.eqb s "")
  end.

(** [7.5] and [9e-3] as Python floats (binary64). *)
Definition float_7_5 : float := 0x1.ep+2%float.
Definition float_9e_3 : float := 0x1.26e978d4fdf3bp-7%float.

(** [s.replace(old, new)] for one-character [old] and [new]. *)
Fixpoint str_replace (old new : Ascii.ascii) (s : string) : string :=
  match s with
  | EmptyString => EmptyString
  | String c r => String (if Ascii.eqb c old then new else c) (str_replace old new r)
  end.

(** ** schedulers.py: the exporter *)

Module Schedulers.

Record Args : Type := mkArgs {
  hf_auth_token : option string;
  hf_model_name : string;
  scheduler_id : string;
  num_inference_steps : Z;
  batch_size : Z;
  height : Z;
  width : Z;
  compile_to : option string;
  external_weight_path : string;
  external_weights : option string;
  device : string;
  iree_target_triple : string;
  vulkan_max_allocation : string;
}.

(** The parser's defaults. *)
Definition default_args : Args :=
  mkArgs None "CompVis/stable-diffusion-v1-4" "PNDM" 50 1 512 512 None ""
         None "cpu" "" "4294967296".

(** The declared input sizes of the exported [main] (lines 123-127). *)
Definition encoder_hidden_states_sizes (hf_model_name : string) : list Z :=
  if String.eqb hf_model_name "stabilityai/stable-diffusion-2-1-base"
  then [2; 77; 1024]%Z
  else [2; 77; 768]%Z.

Definition sample_sizes (batch_size height width : Z) : list Z :=
  [batch_size; 4; height `div` 8; width `div` 8]%Z.

Section Exporter.
Context {F Time St UNet Vmfb : Type}.
Context {HScalar : Scalar F} {HSched : SchedulerMixin F Time St}
        {HUNet : UNet2DConditionModel F Time UNet}
        {HTools : Toolchain F St UNet Vmfb}.

Local Abbreviation Py := (Py F Time).
Local Abbreviation Module := (SchedulerModule St UNet).

(** [Scheduler.__init__] *)
Definition Scheduler_init (hf_model_name : string) (num_inference_steps : Z)
    (scheduler : St) : Py Module :=
  emit (EvSetTimesteps num_inference_steps) ;;
  scheduler <- lift (set_timesteps num_inference_steps scheduler) ;;
  emit (EvUNetFromPretrained hf_model_name) ;;
  unet <- lift (from_pretrained hf_model_name "unet") ;;
  ret (mkSchedulerModule scheduler unet float_7_5).

(** One iteration of the [for] loop of [Scheduler.forward] (lines 87-99). *)
Definition forward_body (self : Module) (encoder_hidden_states : Tensor F)
    (latents : Tensor F) (t : Tensor Time) : Py (Tensor F * Module) :=
  latent_model_input <- lift (torch_cat (replicate 2 latents)) ;;
  let t := unsqueeze0 t in
  emit (EvScaleModelInput latent_model_input t) ;;
  scaled <- lift (scale_model_input latent_model_input t (scheduler self)) ;;
  let latent_model_input := scaled.1 in
  let self := mkSchedulerModule scaled.2 (unet self) (guidance_scale self) in
  emit (EvUNetForward latent_model_input t encoder_hidden_states) ;;
  unet_out <- lift (unet_forward (unet self) latent_model_input t
                                 encoder_hidden_states) ;;
  chunks <- lift (torch_chunk unet_out 2) ;;
  halves <- lift (unpack2 chunks) ;;
  let noise_pred_uncond := halves.1 in
  let noise_pred_text := halves.2 in
  diff <- lift (tensor_map2 fsub noise_pred_text noise_pred_uncond) ;;
  let weighted := tensor_map (fmul (of_float (guidance_scale self))) diff in
  noise_pred <- lift (tensor_map2 fadd noise_pred_uncond weighted) ;;
  emit (EvSchedulerStep noise_pred t latents) ;;
  stepped <- lift (step noise_pred t latents (scheduler self)) ;;
  ret (stepped.1, mkSchedulerModule stepped.2 (unet self) (guidance_scale self)).

(** The [for] loop over the timesteps the iterator holds. *)
Fixpoint forward_loop (self : Module) (encoder_hidden_states : Tensor F)
    (latents : Tensor F) (ts : list (Tensor Time)) : Py (Tensor F * Module) :=
  match ts with
  | [] => ret (latents, self)
  | t :: ts' =>
    r <- forward_body self encoder_hidden_states latents t ;;
    forward_loop r.2 encoder_hidden_states r.1 ts'
  end.

(** [Scheduler.forward] (lines 84-100) *)
Definition Scheduler_forward (self : Module) (latents : Tensor F)
    (encoder_hidden_states : Tensor F) : Py (Tensor F * Module) :=
  emit EvInitNoiseSigma ;;
  let latents :=
    tensor_map (λ x, fmul x (init_noise_sigma (scheduler self))) latents in
  ts <- lift (tensor_iter (timesteps (scheduler self))) ;;
  forward_loop self encoder_hidden_states latents ts.

(** [export_scheduler] (lines 103-163) *)
Definition export_scheduler (scheduler : Module) (hf_model_name : string)
    (batch_size height width : Z) (hf_auth_token compile_to : option string)
    (external_weights external_weight_path : option string)
    (device target_triple max_alloc : option string) (upload_ir : bool)
  : Py (option string) :=
  emit EvSaveExternalWeights ;;
  lift (save_external_weights scheduler external_weights external_weight_path) ;;
  let encoder_hidden_states_sizes := encoder_hidden_states_sizes hf_model_name in
  let sample := sample_sizes batch_size height width in
  let import_to :=
    if bool_decide (compile_to = Some "linalg") then "INPUT" else "IMPORT" in
  emit (EvGetMlirModule sample encoder_hidden_states_sizes import_to) ;;
  module_str <- lift (get_mlir_module scheduler (truthy external_weights) sample
                                      encoder_hidden_states_sizes import_to) ;;
  let safe_name := create_safe_name hf_model_name "-scheduler" in
  (if upload_ir then
     emit (EvOpenFile (safe_name ++ ".mlir")) ;;
     emit (EvWriteFile (safe_name ++ ".mlir") module_str) ;;
     let model_name_upload := str_replace "/"%char "-"%char hf_model_name ++ "_scheduler" in
     let dst := model_name_upload ++ "/" ++ model_name_upload ++ ".mlir" in
     emit (EvUpload (abspath (safe_name ++ ".mlir")) dst) ;;
     lift (uploadToBlobStorage (abspath (safe_name ++ ".mlir")) dst)
   else ret tt) ;;
  if bool_decide (compile_to ≠ Some "vmfb")
  then ret (Some module_str)
  else
    emit EvCompileToVmfb ;;
    lift (compile_to_vmfb module_str device target_triple max_alloc safe_name) ;;
    ret None.

(** The script body under [if __name__ == "__main__"] (lines 166-190). *)
Definition main (args : Args) : Py unit :=
  emit (EvGetSchedulers (hf_model_name args)) ;;
  schedulers <- lift (get_schedulers (hf_model_name args)) ;;
  scheduler <- getitem schedulers (scheduler_id args) ;;
  scheduler_module <- Scheduler_init (hf_model_name args)
                                     (num_inference_steps args) scheduler ;;
  mod_str <- export_scheduler scheduler_module (hf_model_name args)
               (batch_size args) (height args) (width args)
               (hf_auth_token args) (compile_to args) (external_weights args)
               (Some (external_weight_path args)) (Some (device args))
               (Some (iree_target_triple args))
               (Some (vulkan_max_allocation args)) false ;;
  let safe_name := create_safe_name (hf_model_name args) "-scheduler" in
  emit (EvOpenFile (safe_name ++ ".mlir")) ;;
  match mod_str with
  | Some mod_str => emit (EvWriteFile (safe_name ++ ".mlir") mod_str)
  | None => raise (TypeError "write() argument must be str, not None")
  end ;;
  emit (EvPrint "Saved to").
End Exporter.

End Schedulers.

(** ** schedulers_runner.py: the runner *)

Module SchedulersRunner.

Record Args : Type := mkArgs {
  scheduler_id : string;
  num_inference_steps : Z;
  vmfb_path : string;
  external_weight_path : string;
  compare_vs_torch : bool;
  hf_model_name : string;
  hf_auth_token : option string;
  device : string;
  batch_size : Z;
  height : Z;
  width : Z;
}.

(** The parser's defaults. *)
Definition default_args : Args :=
  mkArgs "PNDM" 50 "" "" false "CompVis/stable-diffusion-v1-4" None
         "local-task" 1 512 512.

(** The sizes of the random inputs the script draws (lines 129-135); the
    second is [None] when neither branch assigns [encoder_hidden_states]. *)
Definition sample_sizes (args : Args) : list Z :=
  [batch_size args; 4; height args `div` 8; width args `div` 8]%Z.

Definition encoder_hidden_states_sizes (args : Args) : option (list Z) :=
  if String.eqb (hf_model_name args) "CompVis/stable-diffusion-v1-4"
  then Some [2; 77; 768]%Z
  else if String.eqb (hf_model_name args) "stabilityai/stable-diffusion-2-1-base"
  then Some [2; 77; 1024]%Z
  else None.

(** [assert err < 9e-3] *)
Definition assert_err (err : float) : result unit :=
  if PrimFloat.ltb err float_9e_3 then Ok tt else Raise AssertionError.

Section Runner.
Context {F Time St UNet Vmfb : Type}.
Context {HScalar : Scalar F} {HSched : SchedulerMixin F Time St}
        {HUNet : UNet2DConditionModel F Time UNet}
        {HTools : Toolchain F St UNet Vmfb}.

Local Abbreviation Py := (Py F Time).
Local Abbreviation Module := (SchedulerModule St UNet).

(** [run_scheduler] (lines 68-84) *)
Definition run_scheduler (device : string) (sample encoder_hidden_states : Tensor F)
    (vmfb_path hf_model_name : string) (hf_auth_token : option string)
    (external_weight_path : string) : Py (Tensor F) :=
  emit (EvVmfbRunner device vmfb_path) ;;
  runner <- lift (vmfbRunner device vmfb_path external_weight_path) ;;
  emit (EvCompiledMain sample encoder_hidden_states) ;;
  lift (compiled_scheduler_main runner sample encoder_hidden_states).

(** [Scheduler.__init__] of the class local to [run_torch_scheduler] *)
Definition Scheduler_init (hf_model_name : string) (num_inference_steps : Z)
    (scheduler : St) : Py Module :=
  emit (EvSetTimesteps num_inference_steps) ;;
  scheduler <- lift (set_timesteps num_inference_steps scheduler) ;;
  emit (EvUNetFromPretrained hf_model_name) ;;
  unet <- lift (from_pretrained hf_model_name "unet") ;;
  ret (mkSchedulerModule scheduler unet float_7_5).

(** One iteration of the [for] loop of the local [Scheduler.forward]
    (lines 104-118). *)
Definition forward_body (self : Module) (encoder_hidden_states : Tensor F)
    (latents : Tensor F) (t : Tensor Time) : Py (Tensor F * Module) :=
  latent_model_input <- lift (torch_cat (replicate 2 latents)) ;;
  let t := unsqueeze0 t in
  emit (EvScaleModelInput latent_model_input t) ;;
  scaled <- lift (scale_model_input latent_model_input t (scheduler self)) ;;
  let latent_model_input := scaled.1 in
  let self := mkSchedulerModule scaled.2 (unet self) (guidance_scale self) in
  emit (EvUNetForward latent_model_input t encoder_hidden_states) ;;
  unet_out <- lift (unet_forward (unet self) latent_model_input t
                                 encoder_hidden_states) ;;
  chunks <- lift (torch_chunk unet_out 2) ;;
  halves <- lift (unpack2 chunks) ;;
  let noise_pred_uncond := halves.1 in
  let noise_pred_text := halves.2 in
  diff <- lift (tensor_map2 fsub noise_pred_text noise_pred_uncond) ;;
  let weighted := tensor_map (fmul (of_float (guidance_scale self))) diff in
  noise_pred <- lift (tensor_map2 fadd noise_pred_uncond weighted) ;;
  emit (EvSchedulerStep noise_pred t latents) ;;
  stepped <- lift (step noise_pred t latents (scheduler self)) ;;
  ret (stepped.1, mkSchedulerModule stepped.2 (unet self) (guidance_scale self)).

Fixpoint forward_loop (self : Module) (encoder_hidden_states : Tensor F)
    (latents : Tensor F) (ts : list (Tensor Time)) : Py (Tensor F * Module) :=
  match ts with
  | [] => ret (latents, self)
  | t :: ts' =>
    r <- forward_body self encoder_hidden_states latents t ;;
    forward_loop r.2 encoder_hidden_states r.1 ts'
  end.

(** The local [Scheduler.forward] (lines 101-119) *)
Definition Scheduler_forward (self : Module) (latents : Tensor F)
    (encoder_hidden_states : Tensor F) : Py (Tensor F * Module) :=
  emit EvInitNoiseSigma ;;
  let latents :=
    tensor_map (λ x, fmul x (init_noise_sigma (scheduler self))) latents in
  ts <- lift (tensor_iter (timesteps (scheduler self))) ;;
  forward_loop self encoder_hidden_states latents ts.

(** [run_torch_scheduler] (lines 87-124) *)
Definition run_torch_scheduler (hf_model_name : string) (scheduler : St)
    (num_inference_steps : Z) (sample encoder_hidden_states : Tensor F)
  : Py (Tensor F) :=
  scheduler_module <- Scheduler_init hf_model_name num_inference_steps scheduler ;;
  results <- Scheduler_forward scheduler_module sample encoder_hidden_states ;;
  ret results.1.

(** The script body under [if __name__ == "__main__"] (lines 127-172). *)
Definition main (args : Args) : Py unit :=
  sample <- rand rng (sample_sizes args) ;;
  encoder_hidden_states <-
    match encoder_hidden_states_sizes args with
    | Some sizes => t <- rand rng sizes ;; ret (Some t)
    | None => ret None
    end ;;
  encoder_hidden_states_arg <-
    read_name "encoder_hidden_states" encoder_hidden_states ;;
  turbine_output <- run_scheduler (device args) sample encoder_hidden_states_arg
                      (vmfb_path args) (hf_model_name args) (hf_auth_token args)
                      (external_weight_path args) ;;
  emit (EvPrint "TURBINE OUTPUT:") ;;
  (if compare_vs_torch args then
     emit (EvPrint "generating torch output: ") ;;
     emit (EvGetSchedulers (hf_model_name args)) ;;
     schedulers <- lift (get_schedulers (hf_model_name args)) ;;
     scheduler <- getitem schedulers (scheduler_id args) ;;
     encoder_hidden_states_arg <-
       read_name "encoder_hidden_states" encoder_hidden_states ;;
     torch_output <- run_torch_scheduler (hf_model_name args) scheduler
                       (num_inference_steps args) sample
                       encoder_hidden_states_arg ;;
     emit (EvPrint "TORCH OUTPUT:") ;;
     emit EvLargestError ;;
     err <- lift (largest_error torch_output turbine_output) ;;
     emit (EvPrintLargestError err) ;;
     lift (assert_err err)
   else ret tt) ;;
  ret tt.
End Runner.

End SchedulersRunner.

(** ** A small concrete world

    Binary64 scalars, two scheduler algorithms behind one registry, an
    identity network and a toolchain that always succeeds.  It is used to
    run the scripts on concrete inputs. *)

Module Toy.

#[global] Instance float_scalar : Scalar float :=
  {| fadd := PrimFloat.add; fsub := PrimFloat.sub; fmul := PrimFloat.mul;
     of_float := λ x, x |}.

Inductive algorithm : Type := Euler | PLMS.

Record sched : Type := mkSched {
  algo : algorithm;
  schedule : list Z;
  step_calls : nat;
}.

(** [n] timesteps spread over 1000 training steps, ascending. *)
Definition spaced (n : Z) : list Z :=
  (λ i, Z.of_nat i * (1000 `div` n))%Z <$> seq 0 (Z.to_nat n).

(** A linear multistep schedule visits its second timestep twice:
    [ts[:-1] + ts[-2:-1] + ts[-1:]], reversed. *)
Definition multistep_order (ts : list Z) : list Z :=
  let n := length ts in
  reverse (take (n - 1) ts ++ take 1 (drop (n - 2) ts) ++ drop (n - 1) ts).

Definition plan (a : algorithm) (n : Z) : list Z :=
  match a with
  | Euler => reverse (spaced n)
  | PLMS => multistep_order (spaced n)
  end.

Definition toy_step (noise_pred : Tensor float) (t : Tensor Z)
    (latents : Tensor float) (st : sched) : result (Tensor float * sched) :=
  if bool_decide (shape noise_pred = shape latents)
  then Ok (mkTensor (shape latents)
             (zip_with (λ l n, PrimFloat.sub l (PrimFloat.mul 0x1p-3%float n))
                       (data latents) (data noise_pred)),
           mkSched (algo st) (schedule st) (S (step_calls st)))
  else Raise (RuntimeError "shape mismatch").

#[global] Instance toy_scheduler : SchedulerMixin float Z sched :=
  {| set_timesteps := λ n st,
       if (0 <? n)%Z then Ok (mkSched (algo st) (plan (algo st) n) (step_calls st))
       else Raise (ValueError "num_inference_steps must be positive");
     init_noise_sigma := λ _, 0x1p+0%float;
     timesteps := λ st, mkTensor [length (schedule st)] (schedule st);
     scale_model_input := λ x _ st, Ok (x, st);
     step := toy_step |}.

(** The network shifts the second (text-conditioned) half of its input. *)
Definition toy_unet_forward (x : Tensor float) : Tensor float :=
  let h := (length (data x) / 2)%nat in
  mkTensor (shape x)
    (take h (data x) ++ ((λ v, PrimFloat.add v 0x1p+0%float) <$> drop h (data x)))%list.

#[global] Instance toy_unet : UNet2DConditionModel float Z unit :=
  {| from_pretrained := λ _ _, Ok tt;
     unet_forward := λ _ x _ _, Ok (toy_unet_forward x) |}.

Definition registry : gmap string sched :=
  {[ "PNDM" := mkSched PLMS [] 0; "EulerDiscrete" := mkSched Euler [] 0 ]}.

(** The largest absolute difference; a difference that is not a number
    propagates, as with [np.max]. *)
Definition max_abs_diff (a b : list float) : float :=
  foldr (λ x acc,
           if negb (PrimFloat.eqb x x) then x
           else if PrimFloat.ltb acc x then x else acc)
        0x0p+0%float
        (zip_with (λ x y, PrimFloat.abs (PrimFloat.sub x y)) a b).

(** The artifact compiled from the exported loop for PLMS with two steps. *)
Definition toy_compiled_main (sample ehs : Tensor float) : result (Tensor float) :=
  match Schedulers.Scheduler_forward
          (mkSchedulerModule (mkSched PLMS (plan PLMS 2) 0) tt float_7_5)
          sample ehs (world0 (F := float) (Time := Z)) with
  | (Ok r, _) => Ok r.1
  | (Raise e, _) => Raise e
  end.

#[global] Instance toy_toolchain : Toolchain float sched unit unit :=
  {| get_schedulers := λ _, Ok registry;
     largest_error := λ a b, Ok (max_abs_diff (data a) (data b));
     create_safe_name := λ name suffix, str_replace "/"%char "_"%char name ++ suffix;
     save_external_weights := λ _ _ _, Ok tt;
     get_mlir_module := λ _ _ _ _ _, Ok "module {}";
     compile_to_vmfb := λ _ _ _ _ _, Ok tt;
     abspath := λ p, "/" ++ p;
     uploadToBlobStorage := λ _ _, Ok tt;
     vmfbRunner := λ _ _ _, Ok tt;
     compiled_scheduler_main := λ _, toy_compiled_main;
     rng := λ _, 0x1p-1%float |}.

(** The same toolchain with an artifact that diverged: every element of its
    output is not a number. *)
Definition diverged_toolchain : Toolchain float sched unit unit :=
  {| get_schedulers := λ _, Ok registry;
     largest_error := λ a b, Ok (max_abs_diff (data a) (data b));
     create_safe_name := λ name suffix, str_replace "/"%char "_"%char name ++ suffix;
     save_external_weights := λ _ _ _, Ok tt;
     get_mlir_module := λ _ _ _ _ _, Ok "module {}";
     compile_to_vmfb := λ _ _ _ _ _, Ok tt;
     abspath := λ p, "/" ++ p;
     uploadToBlobStorage := λ _ _, Ok tt;
     vmfbRunner := λ _ _ _, Ok tt;
     compiled_scheduler_main :=
       λ _ sample _, Ok (mkTensor (shape sample) ((λ _, nan) <$> data sample));
     rng := λ _, 0x1p-1%float |}.

(** Runner configurations on 8 by 8 images. *)
Definition runner_args (scheduler_id : string) (steps : Z) (compare : bool)
    (batch_size : Z) : SchedulersRunner.Args :=
  SchedulersRunner.mkArgs scheduler_id steps "" "" compare
    "CompVis/stable-diffusion-v1-4" None "local-task" batch_size 8 8.

Definition latents0 : Tensor float :=
  mkTensor [1; 4; 1; 1]
    [0x1p+0%float; 0x1p+1%float; 0x1.8p+1%float; 0x1p+2%float].

Definition conditioning0 : Tensor float := mkTensor [2; 1; 1] [0x1p+0%float; 0x1p+1%float].

Definition module0 (a : algorithm) (n : Z) : SchedulerModule sched unit :=
  mkSchedulerModule (mkSched a (plan a n) 0) tt float_7_5.

(** The eager run of the multistep scheduler with two inference steps:
    the process after the constructor, then one forward pass. *)
Definition world1 : World float Z :=
  mkWorld [EvSetTimesteps 2; EvUNetFromPretrained "CompVis/stable-diffusion-v1-4"] 0.

Definition forward_run
  : result (Tensor float * SchedulerModule sched unit) * World float Z :=
  Schedulers.Scheduler_forward (module0 PLMS 2) latents0 conditioning0 world1.

Definition forward_result : Tensor float * SchedulerModule sched unit :=
  match forward_run.1 with
  | Ok r => r
  | Raise _ => (latents0, module0 PLMS 2)
  end.

Definition world2 : World float Z := forward_run.2.

End Toy.

(** ** Vocabulary of the statements *)

(** Two configurations that agree on everything but height and width. *)
Definition exporter_same_but_hw (a b : Schedulers.Args) : Prop :=
  Schedulers.hf_auth_token a = Schedulers.hf_auth_token b
  ∧ Schedulers.hf_model_name a = Schedulers.hf_model_name b
  ∧ Schedulers.scheduler_id a = Schedulers.scheduler_id b
  ∧ Schedulers.num_inference_steps a = Schedulers.num_inference_steps b
  ∧ Schedulers.batch_size a = Schedulers.batch_size b
  ∧ Schedulers.compile_to a = Schedulers.compile_to b
  ∧ Schedulers.external_weight_path a = Schedulers.external_weight_path b
  ∧ Schedulers.external_weights a = Schedulers.external_weights b
  ∧ Schedulers.device a = Schedulers.device b
  ∧ Schedulers.iree_target_triple a = Schedulers.iree_target_triple b
  ∧ Schedulers.vulkan_max_allocation a = Schedulers.vulkan_max_allocation b.

Definition runner_same_but_hw (a b : SchedulersRunner.Args) : Prop :=
  SchedulersRunner.scheduler_id a = SchedulersRunner.scheduler_id b
  ∧ SchedulersRunner.num_inference_steps a = SchedulersRunner.num_inference_steps b
  ∧ SchedulersRunner.vmfb_path a = SchedulersRunner.vmfb_path b
  ∧ SchedulersRunner.external_weight_path a = SchedulersRunner.external_weight_path b
  ∧ SchedulersRunner.compare_vs_torch a = SchedulersRunner.compare_vs_torch b
  ∧ SchedulersRunner.hf_model_name a = SchedulersRunner.hf_model_name b
  ∧ SchedulersRunner.hf_auth_token a = SchedulersRunner.hf_auth_token b
  ∧ SchedulersRunner.device a = SchedulersRunner.device b
  ∧ SchedulersRunner.batch_size a = SchedulersRunner.batch_size b.

(** The sizes the exporter declares for a configuration. *)
Definition exporter_sizes (a : Schedulers.Args) : list Z * list Z :=
  (Schedulers.sample_sizes (Schedulers.batch_size a) (Schedulers.height a)
     (Schedulers.width a),
   Schedulers.encoder_hidden_states_sizes (Schedulers.hf_model_name a)).

(** Reading a trace: the arguments of the calls it records. *)
Definition step_timestep {F Time} (e : event F Time) : option (Tensor Time) :=
  match e with EvSchedulerStep _ t _ => Some t | _ => None end.

Definition step_latents {F Time} (e : event F Time) : option (Tensor F) :=
  match e with EvSchedulerStep _ _ latents => Some latents | _ => None end.

Definition unet_timestep {F Time} (e : event F Time) : option (Tensor Time) :=
  match e with EvUNetForward _ t _ => Some t | _ => None end.

Definition scale_timestep {F Time} (e : event F Time) : option (Tensor Time) :=
  match e with EvScaleModelInput _ t => Some t | _ => None end.

Definition rand_sizes {F Time} (e : event F Time) : option (list Z) :=
  match e with EvTorchRand sizes => Some sizes | _ => None end.

(** The rows of the latent input and of the conditioning input of a call
    of the network. *)
Definition unet_batches {F Time} (e : event F Time) : option (nat * nat) :=
  match e with
  | EvUNetForward sample _ ehs => Some (dim0 sample, dim0 ehs)
  | _ => None
  end.

Definition is_sigma_read {F Time} (e : event F Time) : bool :=
  match e with EvInitNoiseSigma => true | _ => false end.

(** The calls one loop iteration makes. *)
Definition is_loop_event {F Time} (e : event F Time) : bool :=
  match e with
  | EvScaleModelInput _ _ | EvUNetForward _ _ _ | EvSchedulerStep _ _ _ => true
  | _ => false
  end.

(** Tensor computation: loading the network, a loop step, loading or running
    the compiled artifact, tracing or compiling the loop. *)
Definition is_tensor_computation {F Time} (e : event F Time) : bool :=
  match e with
  | EvUNetFromPretrained _ | EvInitNoiseSigma
  | EvScaleModelInput _ _ | EvUNetForward _ _ _ | EvSchedulerStep _ _ _
  | EvGetMlirModule _ _ _ | EvCompileToVmfb
  | EvVmfbRunner _ _ | EvCompiledMain _ _ => true
  | _ => false
  end.

Definition is_error_print {F Time} (e : event F Time) : bool :=
  match e with EvPrintLargestError _ => true | _ => false end.

Definition is_registry_access {F Time} (e : event F Time) : bool :=
  match e with EvGetSchedulers _ => true | _ => false end.

Definition is_compiled_run {F Time} (e : event F Time) : bool :=
  match e with EvCompiledMain _ _ => true | _ => false end.

(** [u + 7.5 * (c - u)] on the elements, in this order of operations. *)
Definition guided_noise {F} `{!Scalar F} (u c : list F) : list F :=
  zip_with (λ a b, fadd a (fmul (of_float float_7_5) (fsub b a))) u c.

(** The noise prediction [noise] is the guided combination of the two halves
    of what the network returns on [x]. *)
Definition guided_step {F Time UNet} `{!Scalar F, !UNet2DConditionModel F Time UNet}
    (unet_obj : UNet) (x : Tensor F) (t : Tensor Time) (ehs noise : Tensor F)
  : Prop :=
  ∃ unet_out u c diff,
    unet_forward unet_obj x t ehs = Ok unet_out
    ∧ torch_chunk unet_out 2 = Ok [u; c]
    ∧ tensor_map2 fsub c u = Ok diff
    ∧ tensor_map2 fadd u (tensor_map (fmul (of_float float_7_5)) diff) = Ok noise
    ∧ ∀ b rest,
        shape unet_out = (b + b)%nat :: rest → tensor_wf unet_out →
        u = mkTensor (b :: rest) (take (b * numel rest) (data unet_out))
        ∧ c = mkTensor (b :: rest) (drop (b * numel rest) (data unet_out))
        ∧ noise = mkTensor (b :: rest) (guided_noise (data u) (data c)).

(** A trace made of loop iterations, each of which passes the guided noise
    of its own network call to [scheduler.step]. *)
Fixpoint guided_steps {F Time UNet} `{!Scalar F, !UNet2DConditionModel F Time UNet}
    (unet_obj : UNet) (evs : list (event F Time)) : Prop :=
  match evs with
  | [] => True
  | EvScaleModelInput _ _ :: EvUNetForward x t ehs
      :: EvSchedulerStep noise t' _ :: evs' =>
    t' = t ∧ guided_step unet_obj x t ehs noise ∧ guided_steps unet_obj evs'
  | _ => False
  end.

(** The same scheduler with another [init_noise_sigma]. *)
Definition with_init_noise_sigma {F Time St} (S : SchedulerMixin F Time St)
    (sigma : St → F) : SchedulerMixin F Time St :=
  {| set_timesteps := set_timesteps;
     init_noise_sigma := sigma;
     timesteps := timesteps;
     scale_model_input := scale_model_input;
     step := step |}.

(** Collaborators that return on well-formed inputs and keep their shape. *)
Definition scale_total {F Time St} `{!SchedulerMixin F Time St} : Prop :=
  ∀ (x : Tensor F) (t : Tensor Time) (st : St),
    tensor_wf x →
    ∃ y st', scale_model_input x t st = Ok (y, st')
             ∧ shape y = shape x ∧ tensor_wf y.

Definition unet_total {F Time UNet} `{!UNet2DConditionModel F Time UNet} : Prop :=
  ∀ (u : UNet) (x : Tensor F) (t : Tensor Time) (ehs : Tensor F),
    tensor_wf x →
    ∃ y, unet_forward u x t ehs = Ok y ∧ shape y = shape x ∧ tensor_wf y.

Definition step_total {F Time St} `{!SchedulerMixin F Time St} : Prop :=
  ∀ (noise : Tensor F) (t : Tensor Time) (latents : Tensor F) (st : St),
    tensor_wf noise → tensor_wf latents → shape noise = shape latents →
    ∃ y st', step noise t latents st = Ok (y, st')
             ∧ shape y = shape latents ∧ tensor_wf y.

(** The step function, given a noise prediction of the shape of the
    latents, returns latents of that shape whenever it returns.  A step that
    combines its two tensors with broadcasting arithmetic is of this kind;
    nothing is asked of it on operands of different shapes. *)
Definition step_shape_preserving {F Time St} `{!SchedulerMixin F Time St} : Prop :=
  ∀ (noise : Tensor F) (t : Tensor Time) (latents : Tensor F) (st : St) y st',
    shape noise = shape latents →
    step noise t latents st = Ok (y, st') → shape y = shape latents.

(** [scale_model_input] keeps the shape of its input whenever it returns. *)
Definition scale_shape_preserving {F Time St} `{!SchedulerMixin F Time St} : Prop :=
  ∀ (x : Tensor F) (t : Tensor Time) (st : St) y st',
    scale_model_input x t st = Ok (y, st') → shape y = shape x.

(** The network keeps the shape of its input whenever it returns. *)
Definition unet_shape_preserving {F Time UNet}
    `{!UNet2DConditionModel F Time UNet} : Prop :=
  ∀ (u : UNet) (x : Tensor F) (t : Tensor Time) (ehs y : Tensor F),
    unet_forward u x t ehs = Ok y → shape y = shape x.

(** [x >= y] and [x != x] on Python floats. *)
Definition float_ge (x y : float) : bool := PrimFloat.leb y x.
Definition float_is_nan (x : float) : bool := negb (PrimFloat.eqb x x).

(** [emits P m]: whatever [m] returns or raises, it only appends to the
    trace, and every call it appends satisfies [P]. *)
Definition emits {F Time A} (P : event F Time → Prop) (m : Py F Time A) : Prop :=
  ∀ w r w', m w = (r, w') → ∃ evs, trace w' = (trace w ++ evs)%list ∧ Forall P evs.

(** The calls made by the constructor, the loop and the artifact runner. *)
Definition is_module_call {F Time} (e : event F Time) : bool :=
  match e with
  | EvSetTimesteps _ | EvUNetFromPretrained _ | EvInitNoiseSigma
  | EvScaleModelInput _ _ | EvUNetForward _ _ _ | EvSchedulerStep _ _ _
  | EvVmfbRunner _ _ | EvCompiledMain _ _ => true
  | _ => false
  end.
(** ** A scheduler whose [scale_model_input] changes the shape

    It exchanges the second and third dimensions of its input and keeps the
    elements.  Its step is [latents - 0.125 * noise_pred] with the
    broadcasting of torch arithmetic: on operands of one shape it returns
    that shape. *)
Definition swap_dims (s : list nat) : list nat :=
  match s with
  | n :: a :: b :: rest => n :: b :: a :: rest
  | _ => s
  end.

Definition broadcasting_step (noise_pred : Tensor float) (t : Tensor Z)
    (latents : Tensor float) (st : Toy.sched)
  : result (Tensor float * Toy.sched) :=
  match tensor_map2 (λ l n, PrimFloat.sub l (PrimFloat.mul 0x1p-3%float n))
          latents noise_pred with
  | Ok y => Ok (y, Toy.mkSched (Toy.algo st) (Toy.schedule st) (S (Toy.step_calls st)))
  | Raise e => Raise e
  end.

Definition reshaping_scheduler : SchedulerMixin float Z Toy.sched :=
  {| set_timesteps := λ n st,
       if (0 <? n)%Z
       then Ok (Toy.mkSched (Toy.algo st) (Toy.plan (Toy.algo st) n) (Toy.step_calls st))
       else Raise (ValueError "num_inference_steps must be positive");
     init_noise_sigma := λ _, 0x1p+0%float;
     timesteps := λ st, mkTensor [length (Toy.schedule st)] (Toy.schedule st);
     scale_model_input := λ x _ st, Ok (mkTensor (swap_dims (shape x)) (data x), st);
     step := broadcasting_step |}.


(** ** Further vocabulary: kinds of calls, shapes at a call *)

(** [c in s] for a character. *)
Fixpoint has_char (c : Ascii.ascii) (s : string) : bool :=
  match s with
  | EmptyString => false
  | String a r => Ascii.eqb a c || has_char c r
  end.

(** Calls of the scheduler object or of the network. *)
Definition is_scheduler_or_network_call {F Time} (e : event F Time) : bool :=
  match e with
  | EvGetSchedulers _ | EvSetTimesteps _ | EvUNetFromPretrained _
  | EvInitNoiseSigma | EvScaleModelInput _ _ | EvUNetForward _ _ _
  | EvSchedulerStep _ _ _ | EvLargestError | EvPrintLargestError _ => true
  | _ => false
  end.

(** Calls that trace, compile, write or upload. *)
Definition is_export_call {F Time} (e : event F Time) : bool :=
  match e with
  | EvSaveExternalWeights | EvGetMlirModule _ _ _ | EvOpenFile _
  | EvWriteFile _ _ | EvUpload _ _ | EvCompileToVmfb => true
  | _ => false
  end.

(** Calls the exporter's script never makes itself: a loop step, random
    tensors, loading or running a compiled artifact, an upload, the
    comparison. *)
Definition is_foreign_to_exporter {F Time} (e : event F Time) : bool :=
  match e with
  | EvInitNoiseSigma | EvScaleModelInput _ _ | EvUNetForward _ _ _
  | EvSchedulerStep _ _ _ | EvTorchRand _ | EvUpload _ _
  | EvVmfbRunner _ _ | EvCompiledMain _ _
  | EvLargestError | EvPrintLargestError _ => true
  | _ => false
  end.

Definition is_upload {F Time} (e : event F Time) : bool :=
  match e with EvUpload _ _ => true | _ => false end.

Definition is_compile {F Time} (e : event F Time) : bool :=
  match e with EvCompileToVmfb => true | _ => false end.

(** At a call of the network the input has an even number of rows; at a
    call of [scheduler.step] the noise prediction has the shape of the
    latents. *)
Definition shapes_agree {F Time} (e : event F Time) : Prop :=
  match e with
  | EvUNetForward x _ _ => ∃ n rest, shape x = (n + n)%nat :: rest
  | EvSchedulerStep noise _ latents => shape noise = shape latents
  | _ => True
  end.

(** The call of the tracer for a configuration of the exporter: the sizes
    and the import mode the script hands over. *)
Definition traced_with {F Time} (args : Schedulers.Args) : event F Time :=
  EvGetMlirModule
    (Schedulers.sample_sizes (Schedulers.batch_size args) (Schedulers.height args)
       (Schedulers.width args))
    (Schedulers.encoder_hidden_states_sizes (Schedulers.hf_model_name args))
    (if bool_decide (Schedulers.compile_to args = Some "linalg")
     then "INPUT" else "IMPORT").

(** ** Concrete configurations and runs of the toy model *)

Definition result_or {A} (d : A) (r : result A) : A :=
  match r with Ok a => a | Raise _ => d end.

(** An export on 8 by 8 images with two steps, for a given target. *)
Definition toy_export_args (steps : Z) (compile_to : option string) : Schedulers.Args :=
  Schedulers.mkArgs None "CompVis/stable-diffusion-v1-4" "PNDM" steps 1 8 8
    compile_to "" None "cpu" "" "4294967296".

(** [export_scheduler] on the toy module, compiled and uploaded. *)
Definition toy_export_run : result (option string) * World float Z :=
  Schedulers.export_scheduler (Toy.module0 Toy.PLMS 2)
    "CompVis/stable-diffusion-v1-4" 1 8 8 None (Some "vmfb") None None None None
    None true world0.

(** Latents without a dimension. *)
Definition scalar_latents : Tensor float := mkTensor [] [0x1p+0%float].

(** The first iteration of the toy run, alone. *)
Definition first_pass
  : result (Tensor float * SchedulerModule Toy.sched unit) * World float Z :=
  Schedulers.forward_loop (Toy.module0 Toy.PLMS 2) Toy.conditioning0 Toy.latents0
    [mkTensor [] [500%Z]] Toy.world1.

(** A network that returns the first row of its input only. *)
Definition single_row_unet : UNet2DConditionModel float Z unit :=
  {| from_pretrained := λ _ _, Ok tt;
     unet_forward := λ _ x _ _,
       Ok (mkTensor (1%nat :: tail (shape x))
                    (take (numel (tail (shape x))) (data x))) |}.

(** The two random inputs of the runner's script, drawn one after the other
    from the generator stream [gen] read from position [pos]. *)
Definition drawn_sample {F} (gen : nat → F) (pos : nat)
    (args : SchedulersRunner.Args) : Tensor F :=
  let s := Z.to_nat <$> SchedulersRunner.sample_sizes args in
  mkTensor s (gen <$> seq pos (numel s)).

Definition drawn_conditioning {F} (gen : nat → F) (pos : nat)
    (args : SchedulersRunner.Args) (sizes : list Z) : Tensor F :=
  let s := Z.to_nat <$> sizes in
  mkTensor s
    (gen <$> seq (pos + numel (Z.to_nat <$> SchedulersRunner.sample_sizes args))
                 (numel s)).

(** The toy toolchain without an artifact to load. *)
Definition missing_artifact_toolchain : Toolchain float Toy.sched unit unit :=
  {| get_schedulers := λ _, Ok Toy.registry;
     largest_error := λ a b, Ok (Toy.max_abs_diff (data a) (data b));
     create_safe_name := λ name suffix, str_replace "/"%char "_"%char name ++ suffix;
     save_external_weights := λ _ _ _, Ok tt;
     get_mlir_module := λ _ _ _ _ _, Ok "module {}";
     compile_to_vmfb := λ _ _ _ _ _, Ok tt;
     abspath := λ p, "/" ++ p;
     uploadToBlobStorage := λ _ _, Ok tt;
     vmfbRunner := λ _ _ _, Raise (RuntimeError "no such file");
     compiled_scheduler_main := λ _, Toy.toy_compiled_main;
     rng := λ _, 0x1p-1%float |}.
(** * Properties *)

Local Open Scope list_scope.

(** ** The monad *)

Section MonadFacts.
Context {F Time : Type}.
Implicit Types w : World F Time.

Lemma bind_ok {A B} (m : Py F Time A) (k : A → Py F Time B) w a w1 :
  m w = (Ok a, w1) → bind m k w = k a w1.
Proof. intros E. unfold bind. now rewrite E. Qed.

Lemma bind_raise {A B} (m : Py F Time A) (k : A → Py F Time B) w e w1 :
  m w = (Raise e, w1) → bind m k w = (Raise e, w1).
Proof. intros E. unfold bind. now rewrite E. Qed.

Lemma bind_inv {A B} (m : Py F Time A) (k : A → Py F Time B) w r w' :
  bind m k w = (r, w') →
  (∃ a w1, m w = (Ok a, w1) ∧ k a w1 = (r, w'))
  ∨ (∃ e, m w = (Raise e, w') ∧ r = Raise e).
Proof.
  unfold bind. destruct (m w) as [[a|e] w1]; intros E.
  - left. eauto.
  - right. inversion E; subst. eauto.
Qed.

Lemma bind_inv_ok {A B} (m : Py F Time A) (k : A → Py F Time B) w b w' :
  bind m k w = (Ok b, w') →
  ∃ a w1, m w = (Ok a, w1) ∧ k a w1 = (Ok b, w').
Proof.
  intros E. apply bind_inv in E as [E|(e & _ & E)]; [exact E|discriminate].
Qed.

Lemma lift_inv_ok {A} (r : result A) w a w' :
  lift r w = (Ok a, w') → r = Ok a ∧ w' = w.
Proof. unfold lift. intros E. inversion E. auto. Qed.

Lemma emit_eq (e : event F Time) w :
  emit e w = (Ok tt, mkWorld (trace w ++ [e]) (rng_pos w)).
Proof. reflexivity. Qed.
Lemma bind_ret_unit (m : Py F Time unit) w : bind m (λ _, ret tt) w = m w.
Proof. unfold bind, ret. destruct (m w) as [[[]|e] w1]; reflexivity. Qed.
End MonadFacts.

Lemma last_app_keep {A} (l1 l2 : list A) x (R : Prop) :
  last l2 = Some x ∧ R → last (l1 ++ l2) = Some x ∧ R.
Proof. intros [H HR]. split; [|exact HR]. now rewrite last_app, H. Qed.


(** ** What a computation appends to the trace *)

Section Emits.
Context {F Time : Type}.
Implicit Types (w : World F Time) (P Q : event F Time → Prop).

Lemma emits_ret {A} P (a : A) : emits P (ret a).
Proof. intros w r w' [= <- <-]. exists []. now rewrite app_nil_r. Qed.

Lemma emits_raise {A} P e : emits P (raise (A := A) e).
Proof. intros w r w' [= <- <-]. exists []. now rewrite app_nil_r. Qed.

Lemma emits_lift {A} P (x : result A) : emits P (lift x).
Proof. intros w r w' [= <- <-]. exists []. now rewrite app_nil_r. Qed.

Lemma emits_emit P e : P e → emits P (emit e).
Proof. intros He w r w' [= <- <-]. exists [e]. split; [reflexivity|]. now constructor. Qed.

Lemma emits_bind {A B} P (m : Py F Time A) (k : A → Py F Time B) :
  emits P m → (∀ a, emits P (k a)) → emits P (bind m k).
Proof.
  intros Hm Hk w r w' E. apply bind_inv in E as [(a & w1 & E1 & E2)|(e & E1 & ->)].
  - apply Hm in E1 as (evs1 & Ht1 & H1). apply Hk in E2 as (evs2 & Ht2 & H2).
    exists (evs1 ++ evs2). rewrite Ht2, Ht1, app_assoc. split; [reflexivity|].
    now apply Forall_app.
  - now apply Hm in E1.
Qed.

Lemma emits_rand P (gen : nat → F) sizes :
  P (EvTorchRand sizes) → emits P (rand gen sizes).
Proof.
  intros He w r w'. unfold rand. destruct (torch_rand _ _ _); intros [= <- <-];
    (exists [EvTorchRand sizes]; split; [reflexivity|now constructor]).
Qed.

Lemma emits_getitem {A} P (d : gmap string A) key : emits P (getitem d key).
Proof. unfold getitem. destruct (d !! key); [apply emits_ret|apply emits_raise]. Qed.

Lemma emits_read_name {A} P name (v : option A) : emits P (read_name name v).
Proof. destruct v; [apply emits_ret|apply emits_raise]. Qed.

Lemma emits_weaken {A} P Q (m : Py F Time A) :
  (∀ e, P e → Q e) → emits P m → emits Q m.
Proof.
  intros HPQ Hm w r w' E. apply Hm in E as (evs & Ht & H). exists evs.
  split; [exact Ht|]. eapply Forall_impl; eauto.
Qed.

(** A run that appended a call violating [Q] got past every computation
    that only makes calls satisfying [Q]. *)
Lemma bind_past {A B} Q (m : Py F Time A) (k : A → Py F Time B) w r w' evs :
  emits Q m → (∀ a, emits (λ _, True) (k a)) →
  bind m k w = (r, w') → trace w' = trace w ++ evs → ¬ Forall Q evs →
  ∃ a w1 evs1 evs2,
    m w = (Ok a, w1) ∧ k a w1 = (r, w')
    ∧ trace w1 = trace w ++ evs1 ∧ Forall Q evs1
    ∧ evs = evs1 ++ evs2 ∧ trace w' = trace w1 ++ evs2 ∧ ¬ Forall Q evs2.
Proof.
  intros Hm Hk E Ht Hn.
  apply bind_inv in E as [(a & w1 & E1 & E2)|(e & E1 & ->)].
  - pose proof E1 as E1'. pose proof E2 as E2'.
    apply Hm in E1' as (evs1 & Ht1 & H1). apply Hk in E2' as (evs2 & Ht2 & _).
    assert (evs = evs1 ++ evs2) as ->.
    { rewrite Ht2, Ht1, <- app_assoc in Ht. now apply app_inv_head in Ht. }
    exists a, w1, evs1, evs2. repeat split; try assumption.
    intros H2. apply Hn. now apply Forall_app.
  - apply Hm in E1 as (evs' & Ht' & H'). rewrite Ht' in Ht.
    apply app_inv_head in Ht. subst evs'. contradiction.
Qed.

Lemma bind_past_elem {A B} Q e (m : Py F Time A) (k : A → Py F Time B)
    w r w' evs :
  emits Q m → (∀ a, emits (λ _, True) (k a)) → ¬ Q e →
  bind m k w = (r, w') → trace w' = trace w ++ evs → e ∈ evs →
  ∃ a w1 evs1 evs2,
    m w = (Ok a, w1) ∧ k a w1 = (r, w')
    ∧ trace w1 = trace w ++ evs1 ∧ Forall Q evs1
    ∧ evs = evs1 ++ evs2 ∧ trace w' = trace w1 ++ evs2 ∧ e ∈ evs2.
Proof.
  intros Hm Hk Hne E Ht Hin.
  destruct (bind_past Q m k w r w' evs Hm Hk E Ht)
    as (a & w1 & evs1 & evs2 & E1 & E2 & Ht1 & H1 & -> & Ht2 & _).
  { intros Hall. rewrite Forall_forall in Hall. exact (Hne (Hall e Hin)). }
  exists a, w1, evs1, evs2. repeat split; try assumption.
  apply elem_of_app in Hin as [Hin|Hin]; [|exact Hin].
  rewrite Forall_forall in H1. destruct (Hne (H1 e Hin)).
Qed.

End Emits.

(** Proves [emits P m] by following the structure of [m]; [P] must hold of
    the calls [m] makes by computation. *)
Ltac emits_step :=
  first
    [ apply emits_ret | apply emits_raise | apply emits_lift
    | apply emits_getitem | apply emits_read_name
    | apply emits_emit; first [exact I | reflexivity]
    | apply emits_rand; first [exact I | reflexivity]
    | apply emits_bind; [|intros ?]
    | assumption ].

Ltac emits_solve :=
  repeat first
    [ progress cbv zeta
    | emits_step
    | match goal with
      | |- emits _ (match ?x with _ => _ end) => destruct x
      | |- emits _ (if ?x then _ else _) => destruct x
      end ].


(** ** Facts about the tensor operations *)

Section TorchFacts.
Context {A : Type}.
Implicit Types (t : Tensor A) (d : list A) (s rest : list nat).

Lemma numel_cons n rest : numel (n :: rest) = (n * numel rest)%nat.
Proof. reflexivity. Qed.

Lemma rows_length k n d : length (rows k n d) = n.
Proof. revert d. induction n as [|n IH]; intros d; cbn; [|rewrite IH]; reflexivity. Qed.

Lemma concat_rows k n d : length d = (n * k)%nat → concat (rows k n d) = d.
Proof.
  revert d. induction n as [|n IH]; intros d Hd; cbn.
  - destruct d; [reflexivity|discriminate].
  - rewrite IH; [apply take_drop|]. rewrite length_drop. lia.
Qed.

Lemma rows_each_length k n d :
  length d = (n * k)%nat → Forall (λ r, length r = k) (rows k n d).
Proof.
  revert d. induction n as [|n IH]; intros d Hd; cbn; constructor.
  - rewrite length_take. lia.
  - apply IH. rewrite length_drop. lia.
Qed.

(** Iterating a tensor yields one item per row of its first dimension. *)
Lemma tensor_iter_length t ts :
  tensor_iter t = Ok ts → ∃ n rest, shape t = n :: rest ∧ length ts = n.
Proof.
  unfold tensor_iter. destruct (shape t) as [|n rest]; [discriminate|].
  intros [= <-]. exists n, rest. split; [reflexivity|].
  now rewrite length_fmap, rows_length.
Qed.

Lemma torch_cat_twice t n rest :
  shape t = n :: rest → tensor_wf t →
  torch_cat (replicate 2 t) = Ok (mkTensor ((n + n)%nat :: rest) (data t ++ data t)).
Proof.
  intros Hs Hwf. unfold torch_cat. cbn [replicate].
  rewrite !filter_cons, filter_nil. unfold is_legacy_empty.
  destruct (decide (bool_decide (shape t = [0%nat]) = false)) as [Hne|He].
  - unfold tail_shape, dim0. cbn. rewrite !Hs.
    rewrite bool_decide_true by reflexivity. cbn.
    rewrite Nat.add_0_r, app_nil_r. reflexivity.
  - apply not_false_is_true, bool_decide_eq_true in He.
    rewrite He in Hs. injection Hs as <- <-.
    unfold tensor_wf in Hwf. rewrite He in Hwf. cbn in Hwf.
    apply nil_length_inv in Hwf. rewrite Hwf. reflexivity.
Qed.

(** Whenever [torch.cat([t] * 2)] returns, the result has twice the rows. *)
Lemma torch_cat_twice_shape t r :
  torch_cat (replicate 2 t) = Ok r →
  ∃ n rest, shape t = n :: rest ∧ shape r = (n + n)%nat :: rest.
Proof.
  unfold torch_cat. cbn [replicate].
  rewrite !filter_cons, filter_nil. unfold is_legacy_empty.
  destruct (decide (bool_decide (shape t = [0%nat]) = false)) as [Hne|He].
  - unfold tail_shape, dim0.
    destruct (shape t) as [|n rest] eqn:Hs; [discriminate|].
    destruct (forallb _ _); [|discriminate]. intros [= <-].
    exists n, rest. cbn. rewrite !Hs, Nat.add_0_r. auto.
  - apply not_false_is_true, bool_decide_eq_true in He.
    intros [= <-]. exists 0%nat, []. auto.
Qed.

Lemma split_rows_two rest b fuel d :
  (2 ≤ fuel)%nat →
  split_rows rest (S b) fuel (S b + S b) d
  = [mkTensor (S b :: rest) (take (S b * numel rest) d);
     mkTensor (S b :: rest)
       (take (S b * numel rest) (drop (S b * numel rest) d))].
Proof.
  intros Hf. destruct fuel as [|[|fuel]]; [lia|lia|].
  cbn [split_rows].
  replace (S b + S b =? 0)%nat with false by (symmetry; apply Nat.eqb_neq; lia).
  replace (S b `min` (S b + S b))%nat with (S b) by lia.
  replace (S b + S b - S b)%nat with (S b) by lia.
  replace (S b =? 0)%nat with false by reflexivity.
  replace (S b `min` S b)%nat with (S b) by lia.
  replace (S b - S b)%nat with 0%nat by lia.
  do 2 f_equal. destruct fuel; reflexivity.
Qed.

(** [chunk(2)] of a well-formed tensor with an even number of rows: the
    first half of the rows and the second half. *)
Lemma torch_chunk_even t b rest :
  shape t = (b + b)%nat :: rest → tensor_wf t →
  torch_chunk t 2
  = Ok [mkTensor (b :: rest) (take (b * numel rest) (data t));
        mkTensor (b :: rest) (drop (b * numel rest) (data t))].
Proof.
  intros Hs Hwf. unfold tensor_wf in Hwf. rewrite Hs, numel_cons in Hwf.
  unfold torch_chunk. rewrite Hs. cbn [Nat.eqb].
  destruct b as [|b].
  - cbn. cbn in Hwf. apply nil_length_inv in Hwf. rewrite Hwf. reflexivity.
  - replace ((S b + S b + 2 - 1) / 2)%nat with (S b).
    2:{ apply Nat.div_unique with (r := 1%nat); lia. }
    replace (S b + S b =? 0)%nat with false by (symmetry; apply Nat.eqb_neq; lia).
    rewrite split_rows_two by lia.
    rewrite (take_ge (drop _ _)) by (rewrite length_drop; lia).
    reflexivity.
Qed.

Lemma broadcast_rev_same s : broadcast_rev s s = Some s.
Proof.
  induction s as [|a s IH]; [reflexivity|].
  cbn. rewrite IH, Nat.eqb_refl. reflexivity.
Qed.

Lemma broadcast_shapes_same s : broadcast_shapes s s = Some s.
Proof.
  unfold broadcast_shapes. rewrite broadcast_rev_same. cbn.
  now rewrite reverse_involutive.
Qed.

Lemma pad_shape_same s : pad_shape (length s) s = s.
Proof. unfold pad_shape. now rewrite Nat.sub_diag. Qed.

Lemma expand_data_same s d : length d = numel s → expand_data s s d = d.
Proof.
  revert d. induction s as [|a s IH]; intros d Hd; [reflexivity|].
  cbn [expand_data]. rewrite Nat.eqb_refl. rewrite numel_cons in Hd.
  rewrite (Forall_fmap_ext_1 (expand_data s s) id).
  - rewrite list_fmap_id. now apply concat_rows.
  - eapply Forall_impl; [apply rows_each_length, Hd|].
    intros r Hr. now apply IH.
Qed.

(** On operands of one shape an elementwise operation is a [zip]. *)
Lemma tensor_map2_same_shape (op : A → A → A) t1 t2 :
  shape t1 = shape t2 → tensor_wf t1 → tensor_wf t2 →
  tensor_map2 op t1 t2 = Ok (mkTensor (shape t1) (zip_with op (data t1) (data t2))).
Proof.
  intros Hs H1 H2. unfold tensor_map2. rewrite <- Hs, broadcast_shapes_same.
  rewrite pad_shape_same, !expand_data_same; [reflexivity| |assumption].
  now rewrite Hs.
Qed.

Lemma zip_with_guided (add sub : A → A → A) (scale : A → A) (u c : list A) :
  zip_with add u (scale <$> zip_with sub c u)
  = zip_with (λ a b, add a (scale (sub b a))) u c.
Proof.
  revert c. induction u as [|a u IH]; intros [|b c]; cbn; try reflexivity.
  now rewrite IH.
Qed.

(** Whenever [chunk(2)] of an even number of rows gives two pieces, each
    has half the rows. *)
Lemma torch_chunk_even_shape (x : Tensor A) b rest u c :
  shape x = (b + b)%nat :: rest → torch_chunk x 2 = Ok [u; c] →
  shape u = b :: rest ∧ shape c = b :: rest.
Proof.
  intros Hs. unfold torch_chunk. rewrite Hs. cbn [Nat.eqb].
  destruct b as [|b].
  - cbn. intros [= <- <-]. auto.
  - replace ((S b + S b + 2 - 1) / 2)%nat with (S b).
    2:{ apply Nat.div_unique with (r := 1%nat); lia. }
    replace (S b + S b =? 0)%nat with false by (symmetry; apply Nat.eqb_neq; lia).
    rewrite split_rows_two by lia. intros [= <- <-]. auto.
Qed.

(** Whenever an elementwise operation on operands of one shape returns,
    the result has that shape. *)
Lemma tensor_map2_shape_same (op : A → A → A) (t1 t2 r : Tensor A) :
  shape t1 = shape t2 → tensor_map2 op t1 t2 = Ok r → shape r = shape t1.
Proof.
  intros Hs. unfold tensor_map2. rewrite <- Hs, broadcast_shapes_same.
  intros [= <-]. reflexivity.
Qed.

End TorchFacts.


(** ** One iteration of the loop *)

Section LoopBody.
Context {F Time St UNet : Type}.
Context {HScalar : Scalar F} {HSched : SchedulerMixin F Time St}
        {HUNet : UNet2DConditionModel F Time UNet}.
Implicit Types (self : SchedulerModule St UNet) (w : World F Time).
Implicit Types (latents ehs : Tensor F) (t : Tensor Time).

(** What a successful iteration did, call by call. *)
Lemma forward_body_inv self ehs latents t w r w' :
  Schedulers.forward_body self ehs latents t w = (Ok r, w') →
  ∃ lmi scaled unet_out u c diff noise stepped,
    torch_cat (replicate 2 latents) = Ok lmi
    ∧ scale_model_input lmi (unsqueeze0 t) (scheduler self) = Ok scaled
    ∧ unet_forward (unet self) scaled.1 (unsqueeze0 t) ehs = Ok unet_out
    ∧ torch_chunk unet_out 2 = Ok [u; c]
    ∧ tensor_map2 fsub c u = Ok diff
    ∧ tensor_map2 fadd u (tensor_map (fmul (of_float (guidance_scale self))) diff)
      = Ok noise
    ∧ step noise (unsqueeze0 t) latents scaled.2 = Ok stepped
    ∧ r = (stepped.1, mkSchedulerModule stepped.2 (unet self) (guidance_scale self))
    ∧ w' = mkWorld (trace w ++ [EvScaleModelInput lmi (unsqueeze0 t);
                                EvUNetForward scaled.1 (unsqueeze0 t) ehs;
                                EvSchedulerStep noise (unsqueeze0 t) latents])
                   (rng_pos w).
Proof.
  unfold Schedulers.forward_body. intros E.
  apply bind_inv_ok in E as (lmi & w1 & E1 & E). apply lift_inv_ok in E1 as [E1 ->].
  apply bind_inv_ok in E as ([] & w1 & Ee & E). rewrite emit_eq in Ee.
  injection Ee as <-.
  apply bind_inv_ok in E as (scaled & w1 & E2 & E). apply lift_inv_ok in E2 as [E2 ->].
  cbn [scheduler unet guidance_scale] in E.
  apply bind_inv_ok in E as ([] & w1 & Ee & E). rewrite emit_eq in Ee.
  injection Ee as <-.
  apply bind_inv_ok in E as (unet_out & w1 & E3 & E). apply lift_inv_ok in E3 as [E3 ->].
  apply bind_inv_ok in E as (chunks & w1 & E4 & E). apply lift_inv_ok in E4 as [E4 ->].
  apply bind_inv_ok in E as (halves & w1 & E5 & E). apply lift_inv_ok in E5 as [E5 ->].
  apply bind_inv_ok in E as (diff & w1 & E6 & E). apply lift_inv_ok in E6 as [E6 ->].
  apply bind_inv_ok in E as (noise & w1 & E7 & E). apply lift_inv_ok in E7 as [E7 ->].
  apply bind_inv_ok in E as ([] & w1 & Ee & E). rewrite emit_eq in Ee.
  injection Ee as <-.
  apply bind_inv_ok in E as (stepped & w1 & E8 & E). apply lift_inv_ok in E8 as [E8 ->].
  unfold ret in E. injection E as <- <-.
  assert (chunks = [halves.1; halves.2]) as ->.
  { unfold unpack2 in E5.
    destruct chunks as [|a [|b [|? ?]]]; inversion E5; reflexivity. }
  exists lmi, scaled, unet_out, halves.1, halves.2, diff, noise, stepped.
  cbn [trace rng_pos]. rewrite <- !app_assoc. cbn [app].
  repeat split; assumption.
Qed.

(** Conversely, an iteration whose calls all return does return. *)
Lemma forward_body_intro self ehs latents t w lmi scaled unet_out u c diff noise
    stepped :
  torch_cat (replicate 2 latents) = Ok lmi →
  scale_model_input lmi (unsqueeze0 t) (scheduler self) = Ok scaled →
  unet_forward (unet self) scaled.1 (unsqueeze0 t) ehs = Ok unet_out →
  torch_chunk unet_out 2 = Ok [u; c] →
  tensor_map2 fsub c u = Ok diff →
  tensor_map2 fadd u (tensor_map (fmul (of_float (guidance_scale self))) diff)
  = Ok noise →
  step noise (unsqueeze0 t) latents scaled.2 = Ok stepped →
  Schedulers.forward_body self ehs latents t w
  = (Ok (stepped.1, mkSchedulerModule stepped.2 (unet self) (guidance_scale self)),
     mkWorld (trace w ++ [EvScaleModelInput lmi (unsqueeze0 t);
                          EvUNetForward scaled.1 (unsqueeze0 t) ehs;
                          EvSchedulerStep noise (unsqueeze0 t) latents])
             (rng_pos w)).
Proof.
  intros E1 E2 E3 E4 E5 E6 E7.
  unfold Schedulers.forward_body, bind, lift, emit, ret.
  rewrite E1, E2. cbn [scheduler unet guidance_scale trace rng_pos].
  rewrite E3, E4. cbn [unpack2 fst snd]. rewrite E5, E6.
  cbn [trace rng_pos]. rewrite E7.
  rewrite <- !app_assoc. reflexivity.
Qed.

(** The noise an iteration hands to [scheduler.step] is the guided
    combination of the halves of the network output. *)
Lemma forward_body_guided self ehs latents t w r w' :
  guidance_scale self = float_7_5 →
  Schedulers.forward_body self ehs latents t w = (Ok r, w') →
  ∃ lmi x noise,
    w' = mkWorld (trace w ++ [EvScaleModelInput lmi (unsqueeze0 t);
                              EvUNetForward x (unsqueeze0 t) ehs;
                              EvSchedulerStep noise (unsqueeze0 t) latents])
                 (rng_pos w)
    ∧ guided_step (unet self) x (unsqueeze0 t) ehs noise.
Proof.
  intros Hg E.
  apply forward_body_inv in E
    as (lmi & scaled & out & u & c & diff & noise & stepped
        & E1 & E2 & E3 & E4 & E5 & E6 & E7 & -> & ->).
  rewrite Hg in E6.
  exists lmi, scaled.1, noise. split; [reflexivity|].
  exists out, u, c, diff. do 4 (split; [assumption|]).
  intros b rest Hs Hwf.
  rewrite (torch_chunk_even _ _ _ Hs Hwf) in E4. injection E4 as <- <-.
  assert (Hlen : length (data out) = ((b + b) * numel rest)%nat).
  { unfold tensor_wf in Hwf. now rewrite Hs in Hwf. }
  do 2 (split; [reflexivity|]).
  assert (Hwf1 : tensor_wf
            (mkTensor (b :: rest) (take (b * numel rest) (data out)))).
  { unfold tensor_wf. cbn [shape data]. rewrite numel_cons, length_take. lia. }
  assert (Hwf2 : tensor_wf
            (mkTensor (b :: rest) (drop (b * numel rest) (data out)))).
  { unfold tensor_wf. cbn [shape data]. rewrite numel_cons, length_drop. lia. }
  rewrite tensor_map2_same_shape in E5 by (reflexivity || assumption).
  injection E5 as <-. cbn [shape data] in E6.
  rewrite tensor_map2_same_shape in E6.
  - injection E6 as <-. cbn [shape data tensor_map].
    unfold guided_noise. now rewrite zip_with_guided.
  - reflexivity.
  - assumption.
  - unfold tensor_wf. cbn [shape data tensor_map].
    rewrite numel_cons, length_fmap, length_zip_with, length_take, length_drop.
    lia.
Qed.

End LoopBody.

(** ** A whole run of the loop *)

Section LoopRun.
Context {F Time St UNet : Type}.
Context {HScalar : Scalar F} {HSched : SchedulerMixin F Time St}
        {HUNet : UNet2DConditionModel F Time UNet}.
Implicit Types (self : SchedulerModule St UNet) (w : World F Time).
Implicit Types (latents ehs : Tensor F) (t : Tensor Time).

(** A successful run of the loop over [ts]: what it appends to the trace. *)
Lemma forward_loop_inv ehs ts : ∀ self latents w r w',
  Schedulers.forward_loop self ehs latents ts w = (Ok r, w') →
  ∃ evs,
    w' = mkWorld (trace w ++ evs) (rng_pos w)
    ∧ unet r.2 = unet self
    ∧ guidance_scale r.2 = guidance_scale self
    ∧ (guidance_scale self = float_7_5 → guided_steps (unet self) evs)
    ∧ omap scale_timestep evs = unsqueeze0 <$> ts
    ∧ omap unet_timestep evs = unsqueeze0 <$> ts
    ∧ omap step_timestep evs = unsqueeze0 <$> ts
    ∧ length evs = (3 * length ts)%nat
    ∧ Forall (λ e, is_loop_event e = true) evs
    ∧ head (omap step_latents evs) = (λ _, latents) <$> head ts
    ∧ (scale_shape_preserving → unet_shape_preserving → step_shape_preserving →
       shape r.1 = shape latents
       ∧ Forall (λ l, shape l = shape latents) (omap step_latents evs)).
Proof.
  induction ts as [|t ts IH]; intros self latents w r w' E.
  - cbn in E. injection E as <- <-. exists []. rewrite app_nil_r.
    destruct w. cbn. repeat split; auto.
  - cbn [Schedulers.forward_loop] in E.
    apply bind_inv_ok in E as (r1 & w1 & Eb & E).
    pose proof Eb as Eg.
    apply forward_body_inv in Eb
      as (lmi & scaled & out & u & c & diff & noise & stepped
          & E1 & E2 & E3 & E4 & E5 & E6 & E7 & -> & ->).
    apply IH in E as (evs & -> & Hu & Hg & Hgs & Hs1 & Hs2 & Hs3 & Hl & Hf & _ & Hsh).
    cbn [fst snd unet guidance_scale trace rng_pos] in *.
    exists (EvScaleModelInput lmi (unsqueeze0 t)
            :: EvUNetForward scaled.1 (unsqueeze0 t) ehs
            :: EvSchedulerStep noise (unsqueeze0 t) latents :: evs).
    split; [now rewrite <- app_assoc|].
    do 2 (split; [assumption|]).
    split.
    { intros H75. cbn [guided_steps]. split; [reflexivity|]. split; [|auto].
      apply forward_body_guided in Eg as (lmi' & x' & noise' & Ew & Hstep); [|exact H75].
      injection Ew as Ew. apply app_inv_head in Ew.
      injection Ew as -> -> ->. exact Hstep. }
    cbn [omap list_omap scale_timestep unet_timestep step_timestep step_latents
         fmap list_fmap length head].
    rewrite Hs1, Hs2, Hs3, Hl.
    do 3 (split; [reflexivity|]).
    split; [lia|].
    split; [repeat constructor; assumption|].
    split; [reflexivity|].
    intros Hsc Hun Hp. destruct (Hsh Hsc Hun Hp) as [Hr Hall].
    assert (Hst : shape stepped.1 = shape latents).
    { apply torch_cat_twice_shape in E1 as (n & rest & Hlat & Hlmi).
      assert (Hx : shape scaled.1 = (n + n)%nat :: rest).
      { destruct scaled as [x st1]. rewrite <- Hlmi. eapply Hsc. exact E2. }
      assert (Ho : shape out = (n + n)%nat :: rest).
      { rewrite <- Hx. eapply Hun. exact E3. }
      destruct (torch_chunk_even_shape _ _ _ _ _ Ho E4) as [Hus Hcs].
      assert (Hd : shape diff = n :: rest).
      { rewrite <- Hcs. eapply tensor_map2_shape_same; [|exact E5]. congruence. }
      assert (Hn : shape noise = shape latents).
      { rewrite Hlat, <- Hus. eapply tensor_map2_shape_same; [|exact E6].
        cbn [shape tensor_map]. congruence. }
      destruct stepped as [y st']. eapply Hp; [exact Hn|exact E7]. }
    split; [congruence|].
    constructor; [reflexivity|].
    eapply Forall_impl; [exact Hall|]. intros l Hl'. congruence.
Qed.

(** A successful [forward]: one read of [init_noise_sigma], then the loop
    over the timesteps the scheduler holds, started on the scaled latents. *)
Lemma Scheduler_forward_inv self latents ehs w r w' :
  Schedulers.Scheduler_forward self latents ehs w = (Ok r, w') →
  ∃ ts,
    tensor_iter (timesteps (scheduler self)) = Ok ts
    ∧ Schedulers.forward_loop self ehs
        (tensor_map (λ x, fmul x (init_noise_sigma (scheduler self))) latents)
        ts (mkWorld (trace w ++ [EvInitNoiseSigma]) (rng_pos w))
      = (Ok r, w').
Proof.
  unfold Schedulers.Scheduler_forward. intros E.
  apply bind_inv_ok in E as ([] & w1 & Ee & E). rewrite emit_eq in Ee.
  injection Ee as <-.
  apply bind_inv_ok in E as (ts & w1 & Et & E). apply lift_inv_ok in Et as [Et ->].
  exists ts. split; assumption.
Qed.

(** A successful constructor: [set_timesteps] was called with the step
    count, the network was loaded, and the guidance scale is 7.5. *)
Lemma Scheduler_init_inv (hf_model_name : string) (n : Z) (s : St) w self w' :
  Schedulers.Scheduler_init hf_model_name n s w = (Ok self, w') →
  set_timesteps n s = Ok (scheduler self)
  ∧ from_pretrained hf_model_name "unet" = Ok (unet self)
  ∧ guidance_scale self = float_7_5
  ∧ w' = mkWorld (trace w ++ [EvSetTimesteps n; EvUNetFromPretrained hf_model_name])
                 (rng_pos w).
Proof.
  unfold Schedulers.Scheduler_init. intros E.
  apply bind_inv_ok in E as ([] & w1 & Ee & E). rewrite emit_eq in Ee.
  injection Ee as <-.
  apply bind_inv_ok in E as (s' & w1 & E1 & E). apply lift_inv_ok in E1 as [E1 ->].
  apply bind_inv_ok in E as ([] & w1 & Ee & E). rewrite emit_eq in Ee.
  injection Ee as <-.
  apply bind_inv_ok in E as (u & w1 & E2 & E). apply lift_inv_ok in E2 as [E2 ->].
  unfold ret in E. injection E as <- <-. cbn.
  rewrite <- app_assoc. repeat split; assumption.
Qed.

End LoopRun.

(** ** The sampling loop: guidance, initial scaling, step count, shapes *)

Section LoopClaims.
Context {F Time St UNet : Type}.
Context {HScalar : Scalar F} {HSched : SchedulerMixin F Time St}
        {HUNet : UNet2DConditionModel F Time UNet}.
Implicit Types (self : SchedulerModule St UNet) (w : World F Time).
Implicit Types (latents ehs : Tensor F) (t : Tensor Time).

Lemma forward_guided self latents ehs w r w' :
  guidance_scale self = float_7_5 →
  Schedulers.Scheduler_forward self latents ehs w = (Ok r, w') →
  ∃ evs,
    trace w' = trace w ++ EvInitNoiseSigma :: evs
    ∧ guided_steps (unet self) evs
    ∧ length (omap step_timestep evs) = dim0 (timesteps (scheduler self)).
Proof.
  intros Hg E. apply Scheduler_forward_inv in E as (ts & Et & E).
  apply forward_loop_inv in E
    as (evs & -> & _ & _ & Hgs & _ & _ & Hs3 & _).
  exists evs. cbn [trace]. rewrite <- app_assoc. split; [reflexivity|].
  split; [auto|]. rewrite Hs3, length_fmap.
  apply tensor_iter_length in Et as (n & rest & Hs & ->).
  unfold dim0. now rewrite Hs.
Qed.

(** C2: in a forward pass of a module built by the constructor (guidance
    scale 7.5), every iteration passes to [scheduler.step] the tensor
    [u + 7.5 * (c - u)], where [u, c = unet_out.chunk(2)] of that iteration's
    network output: the subtraction, the scaling by 7.5 and the addition are
    applied in this order, and on a network output with an even number of
    rows [u] is the first half, [c] the second half and the result is
    elementwise [fadd u (fmul 7.5 (fsub c u))].  It holds of the exporter's
    loop and of the runner's eager loop. *)
Theorem guided_noise_at_every_step
    (hf_model_name : string) (n : Z) (s : St) w0 w1 w2 self latents ehs r :
  Schedulers.Scheduler_init hf_model_name n s w0 = (Ok self, w1) →
  Schedulers.Scheduler_forward self latents ehs w1 = (Ok r, w2) →
  guidance_scale self = float_7_5
  ∧ (∃ evs,
       trace w2 = trace w1 ++ EvInitNoiseSigma :: evs
       ∧ guided_steps (unet self) evs
       ∧ length (omap step_timestep evs) = dim0 (timesteps (scheduler self)))
  ∧ SchedulersRunner.Scheduler_init hf_model_name n s w0 = (Ok self, w1)
  ∧ ∀ w r' w',
      SchedulersRunner.Scheduler_forward self latents ehs w = (Ok r', w') →
      ∃ evs,
        trace w' = trace w ++ EvInitNoiseSigma :: evs
        ∧ guided_steps (unet self) evs
        ∧ length (omap step_timestep evs) = dim0 (timesteps (scheduler self)).
Proof.
  intros Ei Ef.
  pose proof Ei as Ei'.
  apply Scheduler_init_inv in Ei' as (_ & _ & Hg & _).
  split; [exact Hg|]. split; [eapply forward_guided; eassumption|].
  split; [exact Ei|].
  intros w r' w' E. now apply (forward_guided self latents ehs w r' w').
Qed.

Lemma forward_loop_ignores_sigma (sigma : St → F) ehs ts : ∀ self latents w,
  Schedulers.forward_loop (HSched := with_init_noise_sigma HSched sigma)
    self ehs latents ts w
  = Schedulers.forward_loop self ehs latents ts w.
Proof.
  induction ts as [|t ts IH]; intros self latents w; [reflexivity|].
  cbn [Schedulers.forward_loop]. unfold bind.
  change (Schedulers.forward_body (HSched := with_init_noise_sigma HSched sigma)
            self ehs latents t w)
    with (Schedulers.forward_body self ehs latents t w).
  destruct (Schedulers.forward_body self ehs latents t w) as [[r|e] w1];
    [apply IH|reflexivity].
Qed.

Lemma forward_sigma_once self latents ehs w r w' :
  Schedulers.Scheduler_forward self latents ehs w = (Ok r, w') →
  ∃ ts evs,
    tensor_iter (timesteps (scheduler self)) = Ok ts
    ∧ trace w' = trace w ++ EvInitNoiseSigma :: evs
    ∧ Forall (λ e, is_sigma_read e = false) evs
    ∧ head (omap step_latents evs)
      = (λ _, tensor_map (λ x, fmul x (init_noise_sigma (scheduler self))) latents)
        <$> head ts
    ∧ Schedulers.forward_loop self ehs
        (tensor_map (λ x, fmul x (init_noise_sigma (scheduler self))) latents)
        ts (mkWorld (trace w ++ [EvInitNoiseSigma]) (rng_pos w))
      = (Ok r, w').
Proof.
  intros E. apply Scheduler_forward_inv in E as (ts & Et & E).
  pose proof E as E'.
  apply forward_loop_inv in E'
    as (evs & Hw' & _ & _ & _ & _ & _ & _ & _ & Hloop & Hhd & _).
  exists ts, evs. split; [exact Et|].
  split; [rewrite Hw'; cbn [trace]; now rewrite <- app_assoc|].
  split; [|split; [exact Hhd|exact E]].
  eapply Forall_impl; [exact Hloop|].
  intros [] He; (reflexivity || discriminate).
Qed.

(** C3: a forward pass reads [init_noise_sigma] once, before any call of
    the loop; the loop starts on [latents * init_noise_sigma], which is the
    latent tensor the first [scheduler.step] receives; no later call reads
    it again, and the loop computes the same whatever [init_noise_sigma] is
    (the per-step rescaling is the scheduler's [scale_model_input]).  It
    holds of the exporter's loop and of the runner's eager loop. *)
Theorem init_noise_sigma_applied_once self latents ehs w r w' :
  Schedulers.Scheduler_forward self latents ehs w = (Ok r, w') →
  (∃ ts evs,
     tensor_iter (timesteps (scheduler self)) = Ok ts
     ∧ trace w' = trace w ++ EvInitNoiseSigma :: evs
     ∧ Forall (λ e, is_sigma_read e = false) evs
     ∧ head (omap step_latents evs)
       = (λ _, tensor_map (λ x, fmul x (init_noise_sigma (scheduler self))) latents)
         <$> head ts
     ∧ Schedulers.forward_loop self ehs
         (tensor_map (λ x, fmul x (init_noise_sigma (scheduler self))) latents)
         ts (mkWorld (trace w ++ [EvInitNoiseSigma]) (rng_pos w))
       = (Ok r, w'))
  ∧ (∀ sigma self' latents' ts' w0,
       Schedulers.forward_loop (HSched := with_init_noise_sigma HSched sigma)
         self' ehs latents' ts' w0
       = Schedulers.forward_loop self' ehs latents' ts' w0)
  ∧ SchedulersRunner.Scheduler_forward self latents ehs w = (Ok r, w')
  ∧ (∀ sigma self' latents' ts' w0,
       SchedulersRunner.forward_loop (HSched := with_init_noise_sigma HSched sigma)
         self' ehs latents' ts' w0
       = SchedulersRunner.forward_loop self' ehs latents' ts' w0).
Proof.
  intros E. split; [eapply forward_sigma_once; eassumption|].
  split; [intros; apply forward_loop_ignores_sigma|].
  split; [exact E|].
  intros sigma self' latents' ts' w0.
  exact (forward_loop_ignores_sigma sigma ehs ts' self' latents' w0).
Qed.

(** C4 (as amended): after [set_timesteps(N)] in the constructor, a forward
    pass iterates once per element of the timestep sequence the scheduler
    then holds, in order, each element going through [scale_model_input],
    the network and [scheduler.step] exactly once, with no early exit and no
    restart; the number of iterations is the length of that sequence, which
    is N whenever the scheduler produced N timesteps.  The run is also a run
    of the runner's copy of the constructor and of the loop. *)
Theorem loop_consumes_scheduler_timesteps
    (hf_model_name : string) (n : Z) (s : St) w0 w1 w2 self latents ehs r :
  Schedulers.Scheduler_init hf_model_name n s w0 = (Ok self, w1) →
  Schedulers.Scheduler_forward self latents ehs w1 = (Ok r, w2) →
  (∃ ts evs,
     set_timesteps n s = Ok (scheduler self)
     ∧ tensor_iter (timesteps (scheduler self)) = Ok ts
     ∧ length ts = dim0 (timesteps (scheduler self))
     ∧ trace w2 = trace w1 ++ EvInitNoiseSigma :: evs
     ∧ omap scale_timestep evs = unsqueeze0 <$> ts
     ∧ omap unet_timestep evs = unsqueeze0 <$> ts
     ∧ omap step_timestep evs = unsqueeze0 <$> ts
     ∧ length evs = (3 * length ts)%nat
     ∧ (dim0 (timesteps (scheduler self)) = Z.to_nat n →
        length (omap step_timestep evs) = Z.to_nat n))
  ∧ SchedulersRunner.Scheduler_init hf_model_name n s w0 = (Ok self, w1)
  ∧ SchedulersRunner.Scheduler_forward self latents ehs w1 = (Ok r, w2).
Proof.
  intros Ei Ef. split; [|split; [exact Ei|exact Ef]].
  apply Scheduler_init_inv in Ei as (Hset & _ & _ & _).
  apply Scheduler_forward_inv in Ef as (ts & Et & E).
  apply forward_loop_inv in E
    as (evs & -> & _ & _ & _ & Hs1 & Hs2 & Hs3 & Hl & _).
  exists ts, evs. split; [exact Hset|]. split; [exact Et|].
  assert (Hlen : length ts = dim0 (timesteps (scheduler self))).
  { apply tensor_iter_length in Et as (m & rest & Hs & ->).
    unfold dim0. now rewrite Hs. }
  split; [exact Hlen|].
  cbn [trace]. rewrite <- app_assoc. split; [reflexivity|].
  do 4 (split; [assumption|]).
  intros Hn. now rewrite Hs3, length_fmap, Hlen.
Qed.

Lemma forward_loop_total ehs ts :
  scale_total → unet_total → step_total →
  ∀ self latents w,
    tensor_wf latents → (∃ b rest, shape latents = b :: rest) →
    ∃ r w', Schedulers.forward_loop self ehs latents ts w = (Ok r, w').
Proof.
  intros Hsc Hun Hst.
  induction ts as [|t ts IH]; intros self latents w Hwf (b & rest & Hs).
  - eexists _, _. reflexivity.
  - cbn [Schedulers.forward_loop].
    pose proof (torch_cat_twice latents b rest Hs Hwf) as E1.
    set (lmi := mkTensor ((b + b)%nat :: rest) (data latents ++ data latents)) in E1.
    assert (Hlmi : tensor_wf lmi).
    { unfold tensor_wf, lmi. cbn [shape data].
      rewrite length_app, numel_cons. unfold tensor_wf in Hwf.
      rewrite Hs, numel_cons in Hwf. lia. }
    destruct (Hsc lmi (unsqueeze0 t) (scheduler self) Hlmi)
      as (y & st1 & E2 & Hys & Hywf).
    destruct (Hun (unet self) y (unsqueeze0 t) ehs Hywf) as (out & E3 & Hos & Howf).
    assert (Hout : shape out = (b + b)%nat :: rest) by (now rewrite Hos, Hys).
    pose proof (torch_chunk_even out b rest Hout Howf) as E4.
    set (u := mkTensor (b :: rest) (take (b * numel rest) (data out))) in E4.
    set (c := mkTensor (b :: rest) (drop (b * numel rest) (data out))) in E4.
    assert (Hlen : length (data out) = ((b + b) * numel rest)%nat).
    { unfold tensor_wf in Howf. now rewrite Hout, numel_cons in Howf. }
    assert (Hu : tensor_wf u).
    { unfold tensor_wf, u. cbn [shape data]. rewrite numel_cons, length_take. lia. }
    assert (Hc : tensor_wf c).
    { unfold tensor_wf, c. cbn [shape data]. rewrite numel_cons, length_drop. lia. }
    pose proof (tensor_map2_same_shape fsub c u eq_refl Hc Hu) as E5.
    set (diff := mkTensor (shape c) (zip_with fsub (data c) (data u))) in E5.
    set (weighted := tensor_map (fmul (of_float (guidance_scale self))) diff).
    assert (Hw : tensor_wf weighted).
    { unfold tensor_wf, weighted, diff, c, u. cbn [shape data tensor_map].
      rewrite numel_cons, length_fmap, length_zip_with, length_take, length_drop.
      lia. }
    pose proof (tensor_map2_same_shape fadd u weighted eq_refl Hu Hw) as E6.
    set (noise := mkTensor (shape u) (zip_with fadd (data u) (data weighted))) in E6.
    assert (Hn : tensor_wf noise).
    { unfold tensor_wf, noise, weighted, diff, c, u. cbn [shape data tensor_map].
      rewrite numel_cons, length_zip_with, length_fmap, length_zip_with,
        length_take, length_drop. lia. }
    assert (Hns : shape noise = shape latents) by (now rewrite Hs).
    destruct (Hst noise (unsqueeze0 t) latents st1 Hn Hwf Hns)
      as (l' & st2 & E7 & Hls & Hlwf).
    erewrite bind_ok.
    2:{ eapply (forward_body_intro self ehs latents t w lmi (y, st1) out u c diff
                  noise (l', st2)); eassumption. }
    cbn [fst snd]. apply IH; [exact Hlwf|].
    exists b, rest. now rewrite Hls.
Qed.


End LoopClaims.
(** ** Declared input sizes *)

(** C1 (evaluation at batch size 2): the exporter declares, and the runner
    draws, a conditioning tensor whose first dimension is 2 whatever the batch
    size is.  At batch size 2 the latent has 2 rows and the conditioning
    tensor 2 rows, not 4, and every call of the network in the runner's
    eager loop gets 4 latent rows with 2 conditioning rows. *)
Theorem conditioning_first_dim_at_batch_2 :
  Schedulers.sample_sizes 2 512 512 = [2; 4; 64; 64]%Z
  ∧ Schedulers.encoder_hidden_states_sizes "CompVis/stable-diffusion-v1-4"
    = [2; 77; 768]%Z
  ∧ SchedulersRunner.encoder_hidden_states_sizes
      (SchedulersRunner.mkArgs "PNDM" 50 "" "" false
         "CompVis/stable-diffusion-v1-4" None "local-task" 2 512 512)
    = Some [2; 77; 768]%Z
  ∧ (∀ hf_model_name,
       head (Schedulers.encoder_hidden_states_sizes hf_model_name) = Some 2%Z)
  ∧ (∀ args,
       head <$> SchedulersRunner.encoder_hidden_states_sizes args ≠ Some (Some 4%Z))
  ∧ EvGetMlirModule [2; 4; 64; 64]%Z [2; 77; 768]%Z "IMPORT"
    ∈ trace (Schedulers.main
               (Schedulers.mkArgs None "CompVis/stable-diffusion-v1-4" "PNDM" 50
                  2 512 512 None "" None "cpu" "" "4294967296")
               (world0 (F := float) (Time := Z))).2
  ∧ omap rand_sizes
      (trace (SchedulersRunner.main (Toy.runner_args "PNDM" 2 true 2)
                (world0 (F := float) (Time := Z))).2)
    = [[2; 4; 1; 1]; [2; 77; 768]]%Z
  ∧ omap unet_batches
      (trace (SchedulersRunner.main (Toy.runner_args "PNDM" 2 true 2)
                (world0 (F := float) (Time := Z))).2)
    = [(4, 2); (4, 2); (4, 2)]%nat.
Proof.
  split; [reflexivity|]. split; [reflexivity|]. split; [reflexivity|].
  split; [|split; [|split; [|split]]].
  - intros hf. unfold Schedulers.encoder_hidden_states_sizes.
    now destruct (String.eqb _ _).
  - intros args. unfold SchedulersRunner.encoder_hidden_states_sizes.
    repeat destruct (String.eqb _ _); cbn; congruence.
  - vm_compute. do 4 apply list_elem_of_further. apply list_elem_of_here.
  - vm_compute. reflexivity.
  - vm_compute. reflexivity.
Qed.

Lemma div8_exact (h : Z) : (8 | h)%Z → (8 * (h `div` 8) = h)%Z.
Proof. intros [k ->]. rewrite Z.div_mul by lia. lia. Qed.

(** C8: for two configurations that differ only in height and width (both
    multiples of 8), the latent sizes are (batch, 4, height/8, width/8) with
    exact quotients, they agree on the first two dimensions, and the
    conditioning sizes (2, 77, E) are the same in both; in the exporter and
    in the runner. *)
Theorem height_width_only_rescale_latent
    (a b : Schedulers.Args) (ra rb : SchedulersRunner.Args) :
  exporter_same_but_hw a b → runner_same_but_hw ra rb →
  (8 | Schedulers.height a)%Z → (8 | Schedulers.width a)%Z →
  (8 | Schedulers.height b)%Z → (8 | Schedulers.width b)%Z →
  (8 | SchedulersRunner.height ra)%Z → (8 | SchedulersRunner.width ra)%Z →
  (8 | SchedulersRunner.height rb)%Z → (8 | SchedulersRunner.width rb)%Z →
  (∃ ha wa hb wb E,
     (Schedulers.height a = 8 * ha ∧ Schedulers.width a = 8 * wa
      ∧ Schedulers.height b = 8 * hb ∧ Schedulers.width b = 8 * wb)%Z
     ∧ exporter_sizes a = ([Schedulers.batch_size a; 4; ha; wa]%Z, [2; 77; E]%Z)
     ∧ exporter_sizes b = ([Schedulers.batch_size a; 4; hb; wb]%Z, [2; 77; E]%Z))
  ∧ (∃ ha wa hb wb,
     (SchedulersRunner.height ra = 8 * ha ∧ SchedulersRunner.width ra = 8 * wa
      ∧ SchedulersRunner.height rb = 8 * hb ∧ SchedulersRunner.width rb = 8 * wb)%Z
     ∧ SchedulersRunner.sample_sizes ra
       = [SchedulersRunner.batch_size ra; 4; ha; wa]%Z
     ∧ SchedulersRunner.sample_sizes rb
       = [SchedulersRunner.batch_size ra; 4; hb; wb]%Z
     ∧ SchedulersRunner.encoder_hidden_states_sizes ra
       = SchedulersRunner.encoder_hidden_states_sizes rb
     ∧ ∀ s, SchedulersRunner.encoder_hidden_states_sizes ra = Some s →
            ∃ E, s = [2; 77; E]%Z).
Proof.
  intros (_ & Hhf & _ & _ & Hb & _) (_ & _ & _ & _ & _ & Hrhf & _ & _ & Hrb).
  intros Ha1 Ha2 Hb1 Hb2 Hc1 Hc2 Hd1 Hd2.
  apply div8_exact in Ha1, Ha2, Hb1, Hb2, Hc1, Hc2, Hd1, Hd2.
  split.
  - exists (Schedulers.height a `div` 8)%Z, (Schedulers.width a `div` 8)%Z,
           (Schedulers.height b `div` 8)%Z, (Schedulers.width b `div` 8)%Z.
    unfold exporter_sizes, Schedulers.sample_sizes,
      Schedulers.encoder_hidden_states_sizes.
    rewrite <- Hhf, <- Hb.
    destruct (String.eqb _ _); eexists; (split; [lia|split; reflexivity]).
  - exists (SchedulersRunner.height ra `div` 8)%Z,
           (SchedulersRunner.width ra `div` 8)%Z,
           (SchedulersRunner.height rb `div` 8)%Z,
           (SchedulersRunner.width rb `div` 8)%Z.
    unfold SchedulersRunner.sample_sizes,
      SchedulersRunner.encoder_hidden_states_sizes.
    rewrite <- Hrhf, <- Hrb.
    split; [lia|]. do 3 (split; [reflexivity|]).
    intros s. repeat destruct (String.eqb _ _); intros [= <-] || discriminate;
      eexists; reflexivity.
Qed.

Lemma height_width_only_rescale_latent_witness :
  ∃ ha wa hb wb E,
    (512 = 8 * ha ∧ 512 = 8 * wa ∧ 768 = 8 * hb ∧ 256 = 8 * wb)%Z
    ∧ exporter_sizes Schedulers.default_args = ([1; 4; ha; wa]%Z, [2; 77; E]%Z)
    ∧ exporter_sizes
        (Schedulers.mkArgs None "CompVis/stable-diffusion-v1-4" "PNDM" 50 1 768 256
           None "" None "cpu" "" "4294967296")
      = ([1; 4; hb; wb]%Z, [2; 77; E]%Z).
Proof.
  assert (D512 : (8 | 512)%Z) by (exists 64%Z; reflexivity).
  assert (D768 : (8 | 768)%Z) by (exists 96%Z; reflexivity).
  assert (D256 : (8 | 256)%Z) by (exists 32%Z; reflexivity).
  exact (proj1 (height_width_only_rescale_latent
    Schedulers.default_args
    (Schedulers.mkArgs None "CompVis/stable-diffusion-v1-4" "PNDM" 50 1 768 256
       None "" None "cpu" "" "4294967296")
    SchedulersRunner.default_args
    (SchedulersRunner.mkArgs "PNDM" 50 "" "" false
       "CompVis/stable-diffusion-v1-4" None "local-task" 1 768 256)
    ltac:(repeat split) ltac:(repeat split)
    D512 D512 D768 D256 D512 D512 D768 D256)).
Defined.


(** ** The two copies of the sampling loop *)

Section Refinement.
Context {F Time St UNet Vmfb : Type}.
Context {HScalar : Scalar F} {HSched : SchedulerMixin F Time St}
        {HUNet : UNet2DConditionModel F Time UNet}
        {HTools : Toolchain F St UNet Vmfb}.

(** C9: the exporter's [Scheduler] and the class local to
    [run_torch_scheduler] build the same module from the same arguments and
    compute the same function of (module, latents, conditioning, process
    state): same result or same exception, same final scheduler state, same
    calls; and [run_torch_scheduler] returns what the exporter's constructor
    followed by the exporter's [forward] returns. *)
Theorem runner_loop_equals_exporter_loop :
  (∀ hf_model_name num_inference_steps (scheduler : St) (w : World F Time),
     SchedulersRunner.Scheduler_init (UNet := UNet) hf_model_name
       num_inference_steps scheduler w
     = Schedulers.Scheduler_init hf_model_name num_inference_steps scheduler w)
  ∧ (∀ (self : SchedulerModule St UNet) latents encoder_hidden_states
       (w : World F Time),
     SchedulersRunner.Scheduler_forward self latents encoder_hidden_states w
     = Schedulers.Scheduler_forward self latents encoder_hidden_states w)
  ∧ (∀ hf_model_name (scheduler : St) num_inference_steps sample
       encoder_hidden_states (w : World F Time),
     SchedulersRunner.run_torch_scheduler (UNet := UNet) hf_model_name scheduler
       num_inference_steps sample encoder_hidden_states w
     = (scheduler_module <- Schedulers.Scheduler_init (UNet := UNet) hf_model_name
                              num_inference_steps scheduler ;;
        results <- Schedulers.Scheduler_forward scheduler_module sample
                     encoder_hidden_states ;;
        ret results.1) w).
Proof.
  split; [|split].
  - intros. reflexivity.
  - intros self latents ehs w.
    unfold SchedulersRunner.Scheduler_forward, Schedulers.Scheduler_forward.
    f_equal.
  - intros. reflexivity.
Qed.
End Refinement.


(** ** The calls of the runner's functions *)

Ltac module_side :=
  let e := fresh "e" in
  intros e; destruct e; intros ?;
  first [exact I | reflexivity | discriminate | assumption].

Section RunnerEmits.
Context {F Time St UNet Vmfb : Type}.
Context {HScalar : Scalar F} {HSched : SchedulerMixin F Time St}
        {HUNet : UNet2DConditionModel F Time UNet}
        {HTools : Toolchain F St UNet Vmfb}.
Implicit Types (P : event F Time → Prop).

Lemma emits_run_scheduler P device sample ehs vmfb_path hf_model_name
    hf_auth_token external_weight_path :
  (∀ e, is_module_call e = true → P e) →
  emits P (SchedulersRunner.run_scheduler (St := St) (UNet := UNet) device sample
             ehs vmfb_path hf_model_name hf_auth_token external_weight_path).
Proof.
  intros HP. unfold SchedulersRunner.run_scheduler.
  repeat first [apply emits_bind; [|intros ?] | apply emits_lift
               | apply emits_emit; apply HP; reflexivity].
Qed.

Lemma emits_Scheduler_init P hf_model_name n (s : St) :
  (∀ e, is_module_call e = true → P e) →
  emits P (SchedulersRunner.Scheduler_init (UNet := UNet) hf_model_name n s).
Proof.
  intros HP. unfold SchedulersRunner.Scheduler_init.
  repeat first [apply emits_bind; [|intros ?] | apply emits_lift | apply emits_ret
               | apply emits_emit; apply HP; reflexivity].
Qed.

Lemma emits_forward_body P (self : SchedulerModule St UNet) ehs latents t :
  (∀ e, is_module_call e = true → P e) →
  emits P (SchedulersRunner.forward_body self ehs latents t).
Proof.
  intros HP. unfold SchedulersRunner.forward_body.
  repeat first [progress cbv zeta | apply emits_bind; [|intros ?] | apply emits_lift
               | apply emits_ret | apply emits_emit; apply HP; reflexivity].
Qed.

Lemma emits_forward_loop P ehs ts : ∀ (self : SchedulerModule St UNet) latents,
  (∀ e, is_module_call e = true → P e) →
  emits P (SchedulersRunner.forward_loop self ehs latents ts).
Proof.
  induction ts as [|t ts IH]; intros self latents HP; cbn.
  - apply emits_ret.
  - apply emits_bind; [now apply emits_forward_body|]. intros r. now apply IH.
Qed.

Lemma emits_Scheduler_forward P (self : SchedulerModule St UNet) latents ehs :
  (∀ e, is_module_call e = true → P e) →
  emits P (SchedulersRunner.Scheduler_forward self latents ehs).
Proof.
  intros HP. unfold SchedulersRunner.Scheduler_forward.
  apply emits_bind; [apply emits_emit, HP; reflexivity|]. intros _. cbv zeta.
  apply emits_bind; [apply emits_lift|]. intros ts. now apply emits_forward_loop.
Qed.

Lemma emits_run_torch_scheduler P hf_model_name (s : St) n sample ehs :
  (∀ e, is_module_call e = true → P e) →
  emits P (SchedulersRunner.run_torch_scheduler (UNet := UNet) hf_model_name s n
             sample ehs).
Proof.
  intros HP. unfold SchedulersRunner.run_torch_scheduler.
  apply emits_bind; [now apply emits_Scheduler_init|]. intros m.
  apply emits_bind; [now apply emits_Scheduler_forward|]. intros r.
  apply emits_ret.
Qed.

(** A successful [run_scheduler] loaded the artifact and executed it. *)
Lemma run_scheduler_inv device sample ehs vmfb_path hf_model_name hf_auth_token
    external_weight_path (w : World F Time) out w' :
  SchedulersRunner.run_scheduler (St := St) (UNet := UNet) device sample ehs
    vmfb_path hf_model_name hf_auth_token external_weight_path w = (Ok out, w') →
  ∃ runner,
    vmfbRunner device vmfb_path external_weight_path = Ok runner
    ∧ compiled_scheduler_main runner sample ehs = Ok out
    ∧ w' = mkWorld (trace w ++ [EvVmfbRunner device vmfb_path;
                                EvCompiledMain sample ehs]) (rng_pos w).
Proof.
  unfold SchedulersRunner.run_scheduler. intros E.
  apply bind_inv_ok in E as ([] & w1 & Ee & E). rewrite emit_eq in Ee.
  injection Ee as <-.
  apply bind_inv_ok in E as (runner & w1 & E1 & E). apply lift_inv_ok in E1 as [E1 ->].
  apply bind_inv_ok in E as ([] & w1 & Ee & E). rewrite emit_eq in Ee.
  injection Ee as <-.
  apply lift_inv_ok in E as [E ->].
  exists runner. cbn. rewrite <- app_assoc. auto.
Qed.

End RunnerEmits.

Ltac emits_prog :=
  repeat first
    [ progress cbv zeta
    | apply emits_run_scheduler; module_side
    | apply emits_run_torch_scheduler; module_side
    | emits_step
    | match goal with
      | |- emits _ (match ?x with _ => _ end) => destruct x
      | |- emits _ (if ?x then _ else _) => destruct x
      end ].

(** One step along a run that appended the call [e], which [Q] excludes:
    the first computation of the sequence returned. *)
Ltac past Q HQ :=
  lazymatch goal with
  | E : bind ?m ?k ?w0 = (?r, ?w'), Ht : trace ?w' = trace ?w0 ++ ?evs,
    Hin : _ ∈ ?evs |- _ =>
    let Hm := fresh "Hm" in
    let Hk := fresh "Hk" in
    assert (Hm : emits Q m) by emits_prog;
    assert (Hk : ∀ x, emits (λ _, True) (k x)) by (intros ?; emits_prog);
    let a := fresh "a" in
    let w1 := fresh "w" in
    let evs1 := fresh "evs" in
    let evs2 := fresh "evs" in
    let E1 := fresh "Em" in
    let E2 := fresh "E" in
    let Ht1 := fresh "Htm" in
    let Hq1 := fresh "Hq" in
    let Ht2 := fresh "Ht" in
    let Hin2 := fresh "Hin" in
    destruct (bind_past_elem Q _ m k w0 r w' evs Hm Hk HQ E Ht Hin)
      as (a & w1 & evs1 & evs2 & E1 & E2 & Ht1 & Hq1 & -> & Ht2 & Hin2);
    clear E Ht Hin Hm Hk;
    cbv beta in E2;
    rename E2 into E, Ht2 into Ht, Hin2 into Hin;
    try apply last_app_keep
  end.
(** ** The runner's script *)

Section RunnerScript.
Context {F Time St UNet Vmfb : Type}.
Context {HScalar : Scalar F} {HSched : SchedulerMixin F Time St}
        {HUNet : UNet2DConditionModel F Time UNet}
        {HTools : Toolchain F St UNet Vmfb}.

Lemma torch_rand_nonneg {A} (gen : nat → A) pos sizes :
  Forall (λ z, (0 ≤ z)%Z) sizes →
  torch_rand gen pos sizes
  = Ok (mkTensor (Z.to_nat <$> sizes) (gen <$> seq pos (numel (Z.to_nat <$> sizes)))).
Proof.
  intros Hs. unfold torch_rand.
  replace (forallb _ sizes) with true; [reflexivity|].
  symmetry. apply forallb_forall. intros z Hz.
  rewrite Forall_forall in Hs. apply Z.leb_le, Hs. now apply list_elem_of_In.
Qed.

(** C10: with a model name other than the two the script knows,
    [encoder_hidden_states] is never assigned: the script raises before it
    creates the artifact runner, its only call so far is the [torch.rand] of
    the sample, and the exception is not a [KeyError].  It is the [NameError]
    of the unassigned name exactly when the sample sizes are non-negative, so
    that [torch.rand] of the sample succeeds; with a negative size it is the
    [RuntimeError] of [torch.rand], raised before the name is read. *)
Theorem unknown_model_raises_name_error
    (args : SchedulersRunner.Args) (w : World F Time) :
  SchedulersRunner.hf_model_name args ≠ "CompVis/stable-diffusion-v1-4" →
  SchedulersRunner.hf_model_name args ≠ "stabilityai/stable-diffusion-2-1-base" →
  ∃ e w',
    SchedulersRunner.main (St := St) (UNet := UNet) (Vmfb := Vmfb) args w
    = (Raise e, w')
    ∧ trace w' = trace w ++ [EvTorchRand (SchedulersRunner.sample_sizes args)]
    ∧ (∀ key, e ≠ KeyError key)
    ∧ (Forall (λ z, (0 ≤ z)%Z) (SchedulersRunner.sample_sizes args) →
       e = NameError "encoder_hidden_states")
    ∧ (¬ Forall (λ z, (0 ≤ z)%Z) (SchedulersRunner.sample_sizes args) →
       e = RuntimeError "Trying to create tensor with negative dimension").
Proof.
  intros H1 H2.
  apply String.eqb_neq in H1, H2.
  unfold SchedulersRunner.main, SchedulersRunner.encoder_hidden_states_sizes.
  rewrite H1, H2.
  unfold bind at 1. unfold rand.
  destruct (torch_rand rng (rng_pos w) (SchedulersRunner.sample_sizes args))
    as [t|e] eqn:Hr.
  - cbn. eexists _, _. split; [reflexivity|]. cbn.
    split; [reflexivity|]. split; [discriminate|]. split; [reflexivity|].
    intros Hn. exfalso. apply Hn. unfold torch_rand in Hr.
    destruct (forallb _ _) eqn:Hf; [|discriminate].
    rewrite forallb_forall in Hf. apply Forall_forall. intros z Hz.
    apply Z.leb_le, Hf. now apply list_elem_of_In.
  - eexists _, _. split; [reflexivity|]. cbn.
    split; [reflexivity|]. split; [|split].
    + unfold torch_rand in Hr. destruct (forallb _ _); inversion Hr. discriminate.
    + intros Hs. rewrite (torch_rand_nonneg _ _ _ Hs) in Hr. discriminate.
    + intros _. unfold torch_rand in Hr. destruct (forallb _ _); inversion Hr.
      reflexivity.
Qed.

End RunnerScript.

Lemma unknown_model_raises_name_error_witness :
  ∃ w', SchedulersRunner.main
          (SchedulersRunner.mkArgs "PNDM" 50 "" "" true
             "runwayml/stable-diffusion-v1-5" None "local-task" 1 512 512)
          (world0 (F := float) (Time := Z))
        = (Raise (NameError "encoder_hidden_states"), w')
        ∧ trace w' = [EvTorchRand [1; 4; 64; 64]%Z].
Proof.
  destruct (unknown_model_raises_name_error (F := float) (Time := Z)
              (St := Toy.sched) (UNet := unit) (Vmfb := unit)
              (SchedulersRunner.mkArgs "PNDM" 50 "" "" true
                 "runwayml/stable-diffusion-v1-5" None "local-task" 1 512 512)
              world0 ltac:(discriminate) ltac:(discriminate))
    as (e & w' & Hm & Ht & _ & He & _).
  exists w'. rewrite Hm, He.
  - split; [reflexivity|exact Ht].
  - repeat constructor; vm_compute; discriminate.
Defined.

(** C10 (counterexample to the claim as stated): with a model name the
    script does not know and [--batch_size -1] the run fails at the
    [torch.rand] of the sample with a [RuntimeError]: the unassigned name is
    never read, and no [NameError] is raised. *)
Lemma unknown_model_negative_batch_counterexample :
  SchedulersRunner.main
    (SchedulersRunner.mkArgs "PNDM" 50 "" "" true
       "runwayml/stable-diffusion-v1-5" None "local-task" (-1) 512 512)
    (world0 (F := float) (Time := Z))
  = (Raise (RuntimeError "Trying to create tensor with negative dimension"),
     mkWorld [EvTorchRand [-1; 4; 64; 64]%Z] 0)
  ∧ "runwayml/stable-diffusion-v1-5" ≠ "CompVis/stable-diffusion-v1-4"
  ∧ "runwayml/stable-diffusion-v1-5" ≠ "stabilityai/stable-diffusion-2-1-base".
Proof. split; [vm_compute; reflexivity|split; discriminate]. Qed.

(** ** The comparison against the eager loop *)

Lemma Prim2SF_float_9e_3 :
  Prim2SF float_9e_3 = S754_finite false 5188146770730811 (-59).
Proof. reflexivity. Qed.

Lemma float_is_nan_spec (x : float) :
  float_is_nan x = true ↔ Prim2SF x = S754_nan.
Proof.
  unfold float_is_nan. rewrite FloatAxioms.eqb_spec. unfold SFeqb, SFcompare.
  destruct (Prim2SF x) as [s|s| |s m e].
  - now destruct s.
  - now destruct s.
  - now split.
  - destruct s; rewrite Z.compare_refl, Pos.compare_cont_refl; now split.
Qed.

Lemma not_below_threshold (x : float) :
  PrimFloat.ltb x float_9e_3 = false
  ↔ float_ge x float_9e_3 = true ∨ float_is_nan x = true.
Proof.
  rewrite float_is_nan_spec. unfold float_ge.
  rewrite FloatAxioms.ltb_spec, FloatAxioms.leb_spec, Prim2SF_float_9e_3.
  unfold SFltb, SFleb, SFcompare.
  destruct (Prim2SF x) as [s|s| |s m e].
  - destruct s; split; try discriminate; try (intros [|]; discriminate); auto.
  - destruct s; split; try discriminate; try (intros [|]; discriminate); auto.
  - split; auto.
  - destruct s.
    + split; [discriminate|intros [|]; discriminate].
    + rewrite (Z.compare_antisym e (-59)).
      pose proof (Pos.compare_cont_antisym 5188146770730811 m Eq) as Hm.
      change (CompOpp Eq) with Eq in Hm. rewrite <- Hm. clear Hm.
      destruct (e ?= -59)%Z; unfold CompOpp;
        [destruct (Pos.compare_cont Eq 5188146770730811 m)| |];
        split; try discriminate; try (intros [|]; discriminate); auto.
Qed.

Section Comparison.
Context {F Time St UNet Vmfb : Type}.
Context {HScalar : Scalar F} {HSched : SchedulerMixin F Time St}
        {HUNet : UNet2DConditionModel F Time UNet}
        {HTools : Toolchain F St UNet Vmfb}.

(** C6 (as amended): a run of the runner that printed the largest error
    [err] was started with comparison requested, printed it as its last
    call, and ends in [AssertionError] exactly when [err < 9e-3] is false,
    that is when [err >= 9e-3] or [err] is not a number; it ends normally
    exactly when [err < 9e-3]. *)
Theorem assertion_fails_unless_below_threshold
    (args : SchedulersRunner.Args) (w w' : World F Time) res evs err :
  SchedulersRunner.main (St := St) (UNet := UNet) (Vmfb := Vmfb) args w = (res, w') →
  trace w' = trace w ++ evs →
  EvPrintLargestError err ∈ evs →
  last evs = Some (EvPrintLargestError err)
  ∧ SchedulersRunner.compare_vs_torch args = true
  ∧ (res = Raise AssertionError ↔ PrimFloat.ltb err float_9e_3 = false)
  ∧ (res = Ok tt ↔ PrimFloat.ltb err float_9e_3 = true)
  ∧ (PrimFloat.ltb err float_9e_3 = false
     ↔ float_ge err float_9e_3 = true ∨ float_is_nan err = true).
Proof.
  intros E Ht Hin.
  set (Q := λ e : event F Time, is_error_print e = false).
  assert (HQ : ¬ Q (EvPrintLargestError err)) by discriminate.
  unfold SchedulersRunner.main in E.
  do 5 past Q HQ.
  rewrite bind_ret_unit in E.
  destruct (SchedulersRunner.compare_vs_torch args).
  - do 9 past Q HQ.
    unfold bind, emit, lift in E. injection E as <- <-.
    cbn [trace] in Ht. apply app_inv_head in Ht. subst.
    apply list_elem_of_singleton in Hin. injection Hin as <-.
    split; [reflexivity|]. split; [reflexivity|].
    unfold SchedulersRunner.assert_err.
    split; [|split; [|apply not_below_threshold]];
      destruct (PrimFloat.ltb err float_9e_3); split; congruence.
  - unfold ret in E. injection E as <- <-.
    rewrite <- (app_nil_r (trace w4)) in Ht at 1.
    apply app_inv_head in Ht. subst. now apply elem_of_nil in Hin.
Qed.

(** C7 (as amended): an identifier that is not a key of the registry makes
    the exporter raise [KeyError] at the registry access, its only call so
    far being [get_schedulers] (no network load, no loop step, no tracing or
    compilation).  The runner reads the registry only when comparison is
    requested and only after it has executed the compiled artifact: a run
    that reaches the registry then ends in [KeyError] with the access as its
    last call and the artifact's execution among the earlier ones; without
    comparison the runner never reads the registry. *)
Theorem unknown_scheduler_lookup_error
    (args : Schedulers.Args) (rargs : SchedulersRunner.Args) (w : World F Time)
    (reg rreg : gmap string St) :
  get_schedulers (Schedulers.hf_model_name args) = Ok reg →
  reg !! Schedulers.scheduler_id args = None →
  get_schedulers (SchedulersRunner.hf_model_name rargs) = Ok rreg →
  rreg !! SchedulersRunner.scheduler_id rargs = None →
  Schedulers.main (UNet := UNet) (Vmfb := Vmfb) args w
  = (Raise (KeyError (Schedulers.scheduler_id args)),
     mkWorld (trace w ++ [EvGetSchedulers (Schedulers.hf_model_name args)])
             (rng_pos w))
  ∧ (∀ res w' evs,
       SchedulersRunner.main (UNet := UNet) (Vmfb := Vmfb) rargs w = (res, w') →
       trace w' = trace w ++ evs →
       EvGetSchedulers (SchedulersRunner.hf_model_name rargs) ∈ evs →
       last evs = Some (EvGetSchedulers (SchedulersRunner.hf_model_name rargs))
       ∧ SchedulersRunner.compare_vs_torch rargs = true
       ∧ res = Raise (KeyError (SchedulersRunner.scheduler_id rargs))
       ∧ ∃ sample ehs, EvCompiledMain sample ehs ∈ evs)
  ∧ (SchedulersRunner.compare_vs_torch rargs = false →
     emits (λ e, is_registry_access e = false)
       (SchedulersRunner.main (St := St) (UNet := UNet) (Vmfb := Vmfb) rargs)).
Proof.
  intros Hreg Hnone Hrreg Hrnone. split; [|split].
  - unfold Schedulers.main, bind, emit, lift, getitem, raise.
    rewrite Hreg, Hnone. reflexivity.
  - intros res w' evs E Ht Hin.
    set (Q := λ e : event F Time, is_registry_access e = false).
    assert (HQ : ¬ Q (EvGetSchedulers (SchedulersRunner.hf_model_name rargs)))
      by discriminate.
    unfold SchedulersRunner.main in E.
    do 5 past Q HQ.
    rewrite bind_ret_unit in E.
    destruct (SchedulersRunner.compare_vs_torch rargs).
    + past Q HQ.
      unfold bind, emit, lift, getitem, raise in E. cbn [trace rng_pos] in E.
      rewrite Hrreg, Hrnone in E. injection E as <- <-.
      cbn [trace] in Ht. apply app_inv_head in Ht. subst.
      split; [reflexivity|]. split; [reflexivity|]. split; [reflexivity|].
      apply run_scheduler_inv in Em2 as (runner & _ & _ & ->).
      cbn [trace] in Htm2. apply app_inv_head in Htm2. subst.
      exists a, a1. rewrite !elem_of_app, !elem_of_cons. tauto.
    + unfold ret in E. injection E as <- <-.
      rewrite <- (app_nil_r (trace w4)) in Ht at 1.
      apply app_inv_head in Ht. subst. now apply elem_of_nil in Hin.
  - intros Hc. unfold SchedulersRunner.main. rewrite Hc. emits_prog.
Qed.

End Comparison.

(** C6 (counterexample to the claim as stated): when the compiled output is
    not a number, so is the largest error; the run aborts with
    [AssertionError] although the error is not greater than or equal to
    9e-3. *)
Lemma nan_error_counterexample :
  (SchedulersRunner.main (HTools := Toy.diverged_toolchain)
     (Toy.runner_args "PNDM" 2 true 1) world0).1 = Raise AssertionError
  ∧ last (trace (SchedulersRunner.main (HTools := Toy.diverged_toolchain)
                   (Toy.runner_args "PNDM" 2 true 1) world0).2)
    = Some (EvPrintLargestError nan)
  ∧ float_ge nan float_9e_3 = false
  ∧ SchedulersRunner.assert_err nan = Raise AssertionError.
Proof. repeat split; vm_compute; reflexivity. Qed.

Lemma assertion_fails_unless_below_threshold_witness :
  (SchedulersRunner.main (Toy.runner_args "PNDM" 3 true 1)
     (world0 (F := float) (Time := Z))).1
  = Raise AssertionError
  ∧ PrimFloat.ltb 0x1.57p-1%float float_9e_3 = false.
Proof.
  set (run := SchedulersRunner.main (Toy.runner_args "PNDM" 3 true 1)
                (world0 (F := float) (Time := Z))).
  assert (Hl : last (trace run.2) = Some (EvPrintLargestError 0x1.57p-1%float))
    by (vm_compute; reflexivity).
  assert (Hr : SchedulersRunner.main (Toy.runner_args "PNDM" 3 true 1)
                 (world0 (F := float) (Time := Z)) = (run.1, run.2))
    by (subst run; apply surjective_pairing).
  clearbody run.
  destruct (assertion_fails_unless_below_threshold
              (Toy.runner_args "PNDM" 3 true 1) world0 run.2 run.1 (trace run.2)
              0x1.57p-1%float Hr eq_refl (last_Some_elem_of _ _ Hl))
    as (_ & _ & Hfail & _ & _).
  assert (Hb : PrimFloat.ltb 0x1.57p-1%float float_9e_3 = false)
    by (vm_compute; reflexivity).
  split; [apply Hfail; exact Hb|exact Hb].
Defined.

(** C7 (counterexample to the claim as stated): with the identifier [nope],
    which the registry does not hold, the runner executes the compiled
    artifact (fourth call) and only then raises [KeyError] when comparison is
    requested, and ends normally when it is not. *)
Lemma unknown_scheduler_counterexample :
  Toy.registry !! "nope" = None
  ∧ (SchedulersRunner.main (Toy.runner_args "nope" 2 true 1)
       (world0 (F := float) (Time := Z))).1 = Raise (KeyError "nope")
  ∧ is_compiled_run
    <$> trace (SchedulersRunner.main (Toy.runner_args "nope" 2 true 1)
                 (world0 (F := float) (Time := Z))).2
    = [false; false; false; true; false; false; false]
  ∧ is_registry_access
    <$> trace (SchedulersRunner.main (Toy.runner_args "nope" 2 true 1)
                 (world0 (F := float) (Time := Z))).2
    = [false; false; false; false; false; false; true]
  ∧ (SchedulersRunner.main (Toy.runner_args "nope" 2 false 1)
       (world0 (F := float) (Time := Z))).1 = Ok tt.
Proof. repeat split; vm_compute; reflexivity. Qed.

Lemma unknown_scheduler_lookup_error_witness :
  Schedulers.main
    (Schedulers.mkArgs None "CompVis/stable-diffusion-v1-4" "nope" 50 1 512 512
       None "" None "cpu" "" "4294967296")
    (world0 (F := float) (Time := Z))
  = (Raise (KeyError "nope"),
     mkWorld [EvGetSchedulers "CompVis/stable-diffusion-v1-4"] 0).
Proof.
  assert (Hn : Toy.registry !! "nope" = None) by (vm_compute; reflexivity).
  exact (proj1 (unknown_scheduler_lookup_error (St := Toy.sched)
    (Schedulers.mkArgs None "CompVis/stable-diffusion-v1-4" "nope" 50 1 512 512
       None "" None "cpu" "" "4294967296")
    (Toy.runner_args "nope" 2 true 1) world0 Toy.registry Toy.registry
    eq_refl Hn eq_refl Hn)).
Defined.

(** ** The loop on the concrete world *)

Lemma toy_unet_shape_preserving :
  unet_shape_preserving (F := float) (Time := Z) (UNet := unit).
Proof. intros u x t ehs y [= <-]. reflexivity. Qed.

Lemma toy_step_shape_preserving :
  step_shape_preserving (F := float) (Time := Z) (St := Toy.sched).
Proof.
  intros noise t latents st y st' _. cbn. unfold Toy.toy_step.
  case_bool_decide; [|discriminate]. intros [= <- _]. reflexivity.
Qed.

Lemma toy_scale_shape_preserving :
  scale_shape_preserving (F := float) (Time := Z) (St := Toy.sched).
Proof. intros x t st y st' [= <- _]. reflexivity. Qed.

Lemma toy_scale_total : scale_total (F := float) (Time := Z) (St := Toy.sched).
Proof. intros x t st Hwf. exists x, st. auto. Qed.

Lemma toy_unet_total : unet_total (F := float) (Time := Z) (UNet := unit).
Proof.
  intros u x t ehs Hwf. eexists. split; [reflexivity|]. split; [reflexivity|].
  unfold tensor_wf, Toy.toy_unet_forward in *. cbn [shape data].
  rewrite length_app, length_fmap, length_take, length_drop, <- Hwf.
  assert (length (data x) / 2 ≤ length (data x))%nat by (apply Nat.Div0.div_le_upper_bound; lia).
  lia.
Qed.

Lemma toy_step_total : step_total (F := float) (Time := Z) (St := Toy.sched).
Proof.
  intros noise t latents st Hn Hl Hs. cbn. unfold Toy.toy_step.
  rewrite bool_decide_true by assumption. eexists _, _.
  split; [reflexivity|]. split; [reflexivity|].
  unfold tensor_wf in *. cbn [shape data]. rewrite length_zip_with. rewrite Hs in Hn. lia.
Qed.

Lemma guided_noise_at_every_step_witness :
  ∃ evs,
    trace Toy.world2 = trace Toy.world1 ++ EvInitNoiseSigma :: evs
    ∧ guided_steps tt evs
    ∧ length (omap step_timestep evs) = 3%nat.
Proof.
  assert (Hi : Schedulers.Scheduler_init "CompVis/stable-diffusion-v1-4" 2
                 (Toy.mkSched Toy.PLMS [] 0) world0
               = (Ok (Toy.module0 Toy.PLMS 2), Toy.world1))
    by (vm_compute; reflexivity).
  assert (Hf : Schedulers.Scheduler_forward (Toy.module0 Toy.PLMS 2)
                 Toy.latents0 Toy.conditioning0 Toy.world1
               = (Ok Toy.forward_result, Toy.world2))
    by (vm_compute; reflexivity).
  destruct (guided_noise_at_every_step _ _ _ _ _ _ _ _ _ _ Hi Hf)
    as (_ & (evs & Ht & Hg & Hl) & _).
  exists evs. split; [exact Ht|]. split; [exact Hg|exact Hl].
Defined.

Lemma init_noise_sigma_applied_once_witness :
  ∃ ts evs,
    tensor_iter (timesteps (scheduler (Toy.module0 Toy.PLMS 2))) = Ok ts
    ∧ trace Toy.world2 = trace Toy.world1 ++ EvInitNoiseSigma :: evs
    ∧ Forall (λ e, is_sigma_read e = false) evs
    ∧ head (omap step_latents evs)
      = (λ _, tensor_map (λ x, PrimFloat.mul x 0x1p+0%float) Toy.latents0) <$> head ts.
Proof.
  assert (Hf : Schedulers.Scheduler_forward (Toy.module0 Toy.PLMS 2)
                 Toy.latents0 Toy.conditioning0 Toy.world1
               = (Ok Toy.forward_result, Toy.world2))
    by (vm_compute; reflexivity).
  destruct (init_noise_sigma_applied_once _ _ _ _ _ _ Hf)
    as ((ts & evs & Ht & Htr & Hq & Hh & _) & _).
  exists ts, evs. repeat split; assumption.
Defined.

(** C4 (counterexample to the claim as stated): a multistep scheduler that
    visits one timestep twice holds three timesteps after
    [set_timesteps(2)], and the forward pass iterates three times. *)
Lemma timestep_count_counterexample :
  Schedulers.Scheduler_init "CompVis/stable-diffusion-v1-4" 2
    (Toy.mkSched Toy.PLMS [] 0) world0
  = (Ok (Toy.module0 Toy.PLMS 2), Toy.world1)
  ∧ Toy.forward_run = (Ok Toy.forward_result, Toy.world2)
  ∧ data (timesteps (scheduler (Toy.module0 Toy.PLMS 2))) = [500; 0; 0]%Z
  ∧ omap step_timestep (trace Toy.world2)
    = [mkTensor [1%nat] [500%Z]; mkTensor [1%nat] [0%Z]; mkTensor [1%nat] [0%Z]]
  ∧ length (omap step_timestep (trace Toy.world2)) ≠ Z.to_nat 2.
Proof.
  split; [vm_compute; reflexivity|].
  split; [vm_compute; reflexivity|].
  split; [vm_compute; reflexivity|].
  split; [vm_compute; reflexivity|].
  vm_compute. discriminate.
Qed.

Lemma loop_consumes_scheduler_timesteps_witness :
  ∃ ts evs,
    tensor_iter (timesteps (scheduler (Toy.module0 Toy.PLMS 2))) = Ok ts
    ∧ length ts = 3%nat
    ∧ trace Toy.world2 = trace Toy.world1 ++ EvInitNoiseSigma :: evs
    ∧ omap step_timestep evs = unsqueeze0 <$> ts
    ∧ length evs = (3 * length ts)%nat.
Proof.
  assert (Hi : Schedulers.Scheduler_init "CompVis/stable-diffusion-v1-4" 2
                 (Toy.mkSched Toy.PLMS [] 0) world0
               = (Ok (Toy.module0 Toy.PLMS 2), Toy.world1))
    by (vm_compute; reflexivity).
  assert (Hf : Schedulers.Scheduler_forward (Toy.module0 Toy.PLMS 2)
                 Toy.latents0 Toy.conditioning0 Toy.world1
               = (Ok Toy.forward_result, Toy.world2))
    by (vm_compute; reflexivity).
  destruct (loop_consumes_scheduler_timesteps _ _ _ _ _ _ _ _ _ _ Hi Hf)
    as ((ts & evs & _ & Ht & Hl & Htr & _ & _ & Hs & Hn & _) & _).
  exists ts, evs. repeat split; assumption.
Defined.



(** * Further properties *)

(** ** The exporter's script *)

Section ExporterScript.
Context {F Time St UNet Vmfb : Type}.
Context {HScalar : Scalar F} {HSched : SchedulerMixin F Time St}
        {HUNet : UNet2DConditionModel F Time UNet}
        {HTools : Toolchain F St UNet Vmfb}.
Implicit Types (w : World F Time) (args : Schedulers.Args).

(** X1: when the registry holds the identifier and every collaborator
    returns, an export that does not target [vmfb] calls, in this order, the
    registry, [set_timesteps] with the step count, the network loader, the
    weight saver and the tracer (with the sizes built from batch size, height
    and width and the module that holds the scheduler after [set_timesteps]
    and the guidance scale 7.5), then writes the traced text to
    [<safe name>.mlir] and prints; it makes no other call. *)
Theorem exporter_writes_traced_module args w reg s s' u text :
  get_schedulers (Schedulers.hf_model_name args) = Ok reg →
  reg !! Schedulers.scheduler_id args = Some s →
  set_timesteps (Schedulers.num_inference_steps args) s = Ok s' →
  from_pretrained (Schedulers.hf_model_name args) "unet" = Ok u →
  save_external_weights (mkSchedulerModule s' u float_7_5)
    (Schedulers.external_weights args)
    (Some (Schedulers.external_weight_path args)) = Ok tt →
  get_mlir_module (mkSchedulerModule s' u float_7_5)
    (truthy (Schedulers.external_weights args))
    (Schedulers.sample_sizes (Schedulers.batch_size args) (Schedulers.height args)
       (Schedulers.width args))
    (Schedulers.encoder_hidden_states_sizes (Schedulers.hf_model_name args))
    (if bool_decide (Schedulers.compile_to args = Some "linalg")
     then "INPUT" else "IMPORT") = Ok text →
  Schedulers.compile_to args ≠ Some "vmfb" →
  Schedulers.main (Vmfb := Vmfb) args w
  = (Ok tt,
     mkWorld
       (trace w ++
        [EvGetSchedulers (Schedulers.hf_model_name args);
         EvSetTimesteps (Schedulers.num_inference_steps args);
         EvUNetFromPretrained (Schedulers.hf_model_name args);
         EvSaveExternalWeights;
         traced_with args;
         EvOpenFile
           (create_safe_name (Schedulers.hf_model_name args) "-scheduler" ++ ".mlir");
         EvWriteFile
           (create_safe_name (Schedulers.hf_model_name args) "-scheduler" ++ ".mlir")
           text;
         EvPrint "Saved to"])
       (rng_pos w)).
Proof.
  intros Hreg Hid Hset Hnet Hsave Htrace Hvmfb.
  unfold Schedulers.main, Schedulers.export_scheduler, Schedulers.Scheduler_init,
    traced_with, bind, emit, lift, getitem, ret.
  rewrite Hreg, Hid. cbn [trace rng_pos]. rewrite Hset, Hnet.
  cbn [trace rng_pos]. rewrite Hsave. cbn [trace rng_pos]. rewrite Htrace.
  rewrite bool_decide_true by exact Hvmfb.
  cbn [trace rng_pos]. rewrite <- !app_assoc. reflexivity.
Qed.

(** X2: the same export targeting [vmfb] compiles the traced text; when
    the compiler returns, [export_scheduler] returns [None] and the script opens
    [<safe name>.mlir] for writing and raises [TypeError] at [f.write(None)]:
    nothing is written to the file and nothing is printed. *)
Theorem exporter_vmfb_ends_in_type_error args w reg s s' u text :
  get_schedulers (Schedulers.hf_model_name args) = Ok reg →
  reg !! Schedulers.scheduler_id args = Some s →
  set_timesteps (Schedulers.num_inference_steps args) s = Ok s' →
  from_pretrained (Schedulers.hf_model_name args) "unet" = Ok u →
  save_external_weights (mkSchedulerModule s' u float_7_5)
    (Schedulers.external_weights args)
    (Some (Schedulers.external_weight_path args)) = Ok tt →
  get_mlir_module (mkSchedulerModule s' u float_7_5)
    (truthy (Schedulers.external_weights args))
    (Schedulers.sample_sizes (Schedulers.batch_size args) (Schedulers.height args)
       (Schedulers.width args))
    (Schedulers.encoder_hidden_states_sizes (Schedulers.hf_model_name args))
    "IMPORT" = Ok text →
  Schedulers.compile_to args = Some "vmfb" →
  compile_to_vmfb text (Some (Schedulers.device args))
    (Some (Schedulers.iree_target_triple args))
    (Some (Schedulers.vulkan_max_allocation args))
    (create_safe_name (Schedulers.hf_model_name args) "-scheduler") = Ok tt →
  Schedulers.main (Vmfb := Vmfb) args w
  = (Raise (TypeError "write() argument must be str, not None"),
     mkWorld
       (trace w ++
        [EvGetSchedulers (Schedulers.hf_model_name args);
         EvSetTimesteps (Schedulers.num_inference_steps args);
         EvUNetFromPretrained (Schedulers.hf_model_name args);
         EvSaveExternalWeights;
         traced_with args;
         EvCompileToVmfb;
         EvOpenFile
           (create_safe_name (Schedulers.hf_model_name args) "-scheduler" ++ ".mlir")])
       (rng_pos w)).
Proof.
  intros Hreg Hid Hset Hnet Hsave Htrace Hvmfb Hcompile.
  unfold Schedulers.main, Schedulers.export_scheduler, Schedulers.Scheduler_init,
    traced_with, bind, emit, lift, getitem, ret, raise.
  rewrite Hreg, Hid. cbn [trace rng_pos]. rewrite Hset, Hnet.
  cbn [trace rng_pos]. rewrite Hsave. cbn [trace rng_pos].
  rewrite Hvmfb.
  rewrite (bool_decide_false (Some "vmfb" = Some "linalg")) by discriminate.
  rewrite Htrace.
  rewrite (bool_decide_false (Some "vmfb" ≠ Some "vmfb")) by (intros H; now apply H).
  cbn [trace rng_pos]. rewrite Hcompile.
  cbn [trace rng_pos]. rewrite <- !app_assoc. reflexivity.
Qed.

(** X5: a scheduler that rejects the step count, or a network that fails
    to load, aborts the export with that exception before anything is
    traced, compiled or written: the script has called the registry and
    [set_timesteps] (and the network loader in the second case) and nothing
    else. *)
Theorem exporter_aborts_before_tracing args w reg s e :
  get_schedulers (Schedulers.hf_model_name args) = Ok reg →
  reg !! Schedulers.scheduler_id args = Some s →
  (set_timesteps (Schedulers.num_inference_steps args) s = Raise e
   ∨ ∃ s', set_timesteps (Schedulers.num_inference_steps args) s = Ok s'
           ∧ from_pretrained (UNet := UNet) (Schedulers.hf_model_name args) "unet"
             = Raise e) →
  ∃ w',
    Schedulers.main (UNet := UNet) (Vmfb := Vmfb) args w = (Raise e, w')
    ∧ (trace w' = trace w ++ [EvGetSchedulers (Schedulers.hf_model_name args);
                              EvSetTimesteps (Schedulers.num_inference_steps args)]
       ∨ trace w' = trace w ++ [EvGetSchedulers (Schedulers.hf_model_name args);
                                EvSetTimesteps (Schedulers.num_inference_steps args);
                                EvUNetFromPretrained (Schedulers.hf_model_name args)])
    ∧ ∃ evs, trace w' = trace w ++ evs ∧ Forall (λ e, is_export_call e = false) evs.
Proof.
  intros Hreg Hid [Hset|(s' & Hset & Hnet)];
    unfold Schedulers.main, Schedulers.Scheduler_init, bind, emit, lift, getitem, ret;
    rewrite Hreg, Hid; cbn [trace rng_pos]; rewrite Hset; [|rewrite Hnet];
    eexists; (split; [reflexivity|]); cbn [trace]; rewrite <- !app_assoc; cbn [app].
  - split; [left; reflexivity|]. eexists. split; [reflexivity|].
    repeat constructor.
  - split; [right; reflexivity|]. eexists. split; [reflexivity|].
    repeat constructor.
Qed.

(** X3: a call of [export_scheduler] that returns has traced the module;
    it returns the traced text exactly when the target is not [vmfb] and
    [None] exactly when it is, it calls the compiler exactly when the target
    is [vmfb], and it uploads exactly when [upload_ir] is set. *)
Theorem export_scheduler_branches (m : SchedulerModule St UNet)
    (hf_model_name : string) (batch_size height width : Z)
    (hf_auth_token compile_to external_weights external_weight_path : option string)
    (device target_triple max_alloc : option string) (upload_ir : bool) w r w' :
  Schedulers.export_scheduler (Vmfb := Vmfb) m hf_model_name batch_size height
    width hf_auth_token compile_to external_weights external_weight_path device
    target_triple max_alloc upload_ir w = (Ok r, w') →
  ∃ text evs,
    get_mlir_module m (truthy external_weights)
      (Schedulers.sample_sizes batch_size height width)
      (Schedulers.encoder_hidden_states_sizes hf_model_name)
      (if bool_decide (compile_to = Some "linalg") then "INPUT" else "IMPORT")
    = Ok text
    ∧ trace w' = trace w ++ evs
    ∧ (r = Some text ↔ compile_to ≠ Some "vmfb")
    ∧ (r = None ↔ compile_to = Some "vmfb")
    ∧ (existsb is_compile evs = true ↔ compile_to = Some "vmfb")
    ∧ (existsb is_upload evs = true ↔ upload_ir = true).
Proof.
  unfold Schedulers.export_scheduler, bind, emit, lift, ret.
  destruct (save_external_weights _ _ _) as [[]|e0]; [|discriminate].
  cbn [trace rng_pos].
  destruct (get_mlir_module _ _ _ _ _) as [text|e1]; [|discriminate].
  destruct upload_ir; cbn [trace rng_pos].
  - destruct (uploadToBlobStorage _ _) as [[]|e2]; [|discriminate].
    case_bool_decide as Hv.
    + intros [= <- <-]. exists text. eexists. split; [reflexivity|].
      cbn [trace]. rewrite <- !app_assoc. split; [reflexivity|].
      cbn. repeat split; intros; congruence.
    + cbn [trace rng_pos].
      destruct (compile_to_vmfb _ _ _ _ _) as [[]|e3]; [|discriminate].
      intros [= <- <-]. exists text. eexists. split; [reflexivity|].
      cbn [trace]. rewrite <- !app_assoc. split; [reflexivity|].
      assert (compile_to = Some "vmfb") by (destruct (decide (compile_to = Some "vmfb")); [assumption|contradiction]).
      cbn. repeat split; intros; congruence.
  - case_bool_decide as Hv.
    + intros [= <- <-]. exists text. eexists. split; [reflexivity|].
      cbn [trace]. rewrite <- !app_assoc. split; [reflexivity|].
      cbn. repeat split; intros; congruence.
    + cbn [trace rng_pos].
      destruct (compile_to_vmfb _ _ _ _ _) as [[]|e3]; [|discriminate].
      intros [= <- <-]. exists text. eexists. split; [reflexivity|].
      cbn [trace]. rewrite <- !app_assoc. split; [reflexivity|].
      assert (compile_to = Some "vmfb") by (destruct (decide (compile_to = Some "vmfb")); [assumption|contradiction]).
      cbn. repeat split; intros; congruence.
Qed.

Lemma has_char_app c (s1 s2 : string) :
  has_char c (s1 ++ s2)%string = has_char c s1 || has_char c s2.
Proof.
  induction s1 as [|a s1 IH]; [reflexivity|].
  change (has_char c (String a (s1 ++ s2)%string)
          = has_char c (String a s1) || has_char c s2).
  cbn [has_char]. rewrite IH. now rewrite orb_assoc.
Qed.

Lemma has_char_str_replace old new (s : string) :
  old ≠ new → has_char old (str_replace old new s) = false.
Proof.
  intros Hne. induction s as [|a s IH]; [reflexivity|].
  cbn. rewrite IH, orb_false_r.
  destruct (Ascii.eqb a old) eqn:Ha; apply Ascii.eqb_neq; [congruence|].
  now apply Ascii.eqb_neq.
Qed.

Lemma length_string_app (s1 s2 : string) :
  String.length (s1 ++ s2)%string = (String.length s1 + String.length s2)%nat.
Proof.
  induction s1 as [|a s1 IH]; [reflexivity|].
  change (String.length (String a (s1 ++ s2)%string)
          = (S (String.length s1) + String.length s2)%nat).
  cbn. now rewrite IH.
Qed.

Lemma length_str_replace old new (s : string) :
  String.length (str_replace old new s) = String.length s.
Proof. induction s as [|a s IH]; [reflexivity|]. cbn. now rewrite IH. Qed.

(** X4: with [upload_ir] set, a call of [export_scheduler] that returns
    has written the traced text to [<safe name>.mlir] and uploaded that file
    to [<m>/<m>.mlir], where [m] is the model name with every slash replaced
    by a dash, followed by [_scheduler]; [m] holds no slash, so the
    destination has exactly the one separator, and it is ten characters
    longer than the model name. *)
Theorem export_scheduler_upload_destination (m : SchedulerModule St UNet)
    (hf_model_name : string) (batch_size height width : Z)
    (hf_auth_token compile_to external_weights external_weight_path : option string)
    (device target_triple max_alloc : option string) w r w' :
  Schedulers.export_scheduler (Vmfb := Vmfb) m hf_model_name batch_size height
    width hf_auth_token compile_to external_weights external_weight_path device
    target_triple max_alloc true w = (Ok r, w') →
  ∃ text name rest,
    name = (str_replace "/" "-" hf_model_name ++ "_scheduler")%string
    ∧ get_mlir_module m (truthy external_weights)
        (Schedulers.sample_sizes batch_size height width)
        (Schedulers.encoder_hidden_states_sizes hf_model_name)
        (if bool_decide (compile_to = Some "linalg") then "INPUT" else "IMPORT")
      = Ok text
    ∧ trace w'
      = trace w ++
        [EvSaveExternalWeights;
         EvGetMlirModule (Schedulers.sample_sizes batch_size height width)
           (Schedulers.encoder_hidden_states_sizes hf_model_name)
           (if bool_decide (compile_to = Some "linalg") then "INPUT" else "IMPORT");
         EvOpenFile (create_safe_name hf_model_name "-scheduler" ++ ".mlir");
         EvWriteFile (create_safe_name hf_model_name "-scheduler" ++ ".mlir") text;
         EvUpload (abspath (create_safe_name hf_model_name "-scheduler" ++ ".mlir"))
           (name ++ "/" ++ name ++ ".mlir")] ++ rest
    ∧ Forall (λ e, is_upload e = false) rest
    ∧ has_char "/" name = false
    ∧ String.length name = (String.length hf_model_name + 10)%nat.
Proof.
  unfold Schedulers.export_scheduler, bind, emit, lift, ret.
  destruct (save_external_weights _ _ _) as [[]|e0]; [|discriminate].
  cbn [trace rng_pos].
  destruct (get_mlir_module _ _ _ _ _) as [text|e1]; [|discriminate].
  cbn [trace rng_pos].
  destruct (uploadToBlobStorage _ _) as [[]|e2]; [|discriminate].
  assert (Hname : has_char "/" (str_replace "/" "-" hf_model_name ++ "_scheduler")%string
                  = false
                  ∧ String.length (str_replace "/" "-" hf_model_name ++ "_scheduler")%string
                    = (String.length hf_model_name + 10)%nat).
  { rewrite has_char_app, has_char_str_replace by discriminate.
    split; [reflexivity|].
    rewrite length_string_app, length_str_replace. reflexivity. }
  case_bool_decide as Hv.
  - intros [= <- <-]. exists text, (str_replace "/" "-" hf_model_name ++ "_scheduler")%string, [].
    split; [reflexivity|].
    split; [reflexivity|]. cbn [trace]. rewrite <- !app_assoc.
    split; [reflexivity|]. split; [constructor|exact Hname].
  - cbn [trace rng_pos].
    destruct (compile_to_vmfb _ _ _ _ _) as [[]|e3]; [|discriminate].
    intros [= <- <-].
    exists text, (str_replace "/" "-" hf_model_name ++ "_scheduler")%string,
      [EvCompileToVmfb].
    split; [reflexivity|].
    split; [reflexivity|]. cbn [trace]. rewrite <- !app_assoc.
    split; [reflexivity|]. split; [repeat constructor|exact Hname].
Qed.

(** X6: whatever its arguments and whatever the collaborators do, the
    exporter's script itself never runs a step of the sampling loop (the loop
    is only handed to the tracer), never draws random tensors, never loads or
    runs a compiled artifact, never uploads and never compares outputs. *)
Theorem exporter_never_runs_the_loop args :
  emits (λ e : event F Time, is_foreign_to_exporter e = false)
    (Schedulers.main (St := St) (UNet := UNet) (Vmfb := Vmfb) args).
Proof.
  unfold Schedulers.main, Schedulers.export_scheduler, Schedulers.Scheduler_init.
  cbv beta iota zeta. emits_solve.
Qed.

End ExporterScript.

(** ** The sampling loop: splitting a pass, failures, edge shapes *)

Section LoopFurther.
Context {F Time St UNet : Type}.
Context {HScalar : Scalar F} {HSched : SchedulerMixin F Time St}
        {HUNet : UNet2DConditionModel F Time UNet}.
Implicit Types (self : SchedulerModule St UNet) (w : World F Time).
Implicit Types (latents ehs : Tensor F) (t : Tensor Time).

Lemma forward_loop_app ehs ts1 ts2 : ∀ self latents w,
  Schedulers.forward_loop self ehs latents (ts1 ++ ts2) w
  = (r <- Schedulers.forward_loop self ehs latents ts1 ;;
     Schedulers.forward_loop r.2 ehs r.1 ts2) w.
Proof.
  induction ts1 as [|t ts1 IH]; intros self latents w; [reflexivity|].
  cbn [app Schedulers.forward_loop]. unfold bind.
  destruct (Schedulers.forward_body self ehs latents t w) as [[r|e] w1];
    [rewrite IH; reflexivity|reflexivity].
Qed.

(** X7: a pass over the timesteps [ts1 ++ ts2] is the pass over [ts1]
    followed by the pass over [ts2] started from the latents and the
    scheduler state the first one left, with the trace continued; in the
    exporter's loop and in the runner's. *)
Theorem forward_loop_splits ehs ts1 ts2 self latents w r1 w1 :
  Schedulers.forward_loop self ehs latents ts1 w = (Ok r1, w1) →
  Schedulers.forward_loop self ehs latents (ts1 ++ ts2) w
  = Schedulers.forward_loop r1.2 ehs r1.1 ts2 w1
  ∧ SchedulersRunner.forward_loop self ehs latents (ts1 ++ ts2) w
    = SchedulersRunner.forward_loop r1.2 ehs r1.1 ts2 w1.
Proof.
  intros E.
  assert (H : Schedulers.forward_loop self ehs latents (ts1 ++ ts2) w
              = Schedulers.forward_loop r1.2 ehs r1.1 ts2 w1).
  { rewrite forward_loop_app. unfold bind. now rewrite E. }
  split; exact H.
Qed.

Lemma forward_body_raise_inv self ehs latents t w e w' :
  Schedulers.forward_body self ehs latents t w = (Raise e, w') →
  ∃ evs, trace w' = trace w ++ evs ∧ (length evs ≤ 3)%nat
         ∧ Forall (λ e, is_loop_event e = true) evs.
Proof.
  unfold Schedulers.forward_body, bind, lift, emit, ret.
  destruct (torch_cat _) as [lmi|]; cbn [trace rng_pos].
  2:{ intros [= <- <-]. exists []. rewrite app_nil_r. repeat split; [cbn; lia|constructor]. }
  destruct (scale_model_input _ _ _) as [scaled|]; cbn [trace rng_pos].
  2:{ intros [= <- <-]. eexists [_]. repeat split; [cbn; lia|repeat constructor]. }
  destruct (unet_forward _ _ _ _) as [out|]; cbn [trace rng_pos].
  2:{ intros [= <- <-]. eexists [_; _]. rewrite <- app_assoc.
      repeat split; [cbn; lia|repeat constructor]. }
  destruct (torch_chunk _ _) as [chunks|]; cbn [trace rng_pos].
  2:{ intros [= <- <-]. eexists [_; _]. rewrite <- app_assoc.
      repeat split; [cbn; lia|repeat constructor]. }
  destruct (unpack2 _) as [halves|]; cbn [trace rng_pos].
  2:{ intros [= <- <-]. eexists [_; _]. rewrite <- app_assoc.
      repeat split; [cbn; lia|repeat constructor]. }
  destruct (tensor_map2 fsub _ _) as [diff|]; cbn [trace rng_pos].
  2:{ intros [= <- <-]. eexists [_; _]. rewrite <- app_assoc.
      repeat split; [cbn; lia|repeat constructor]. }
  destruct (tensor_map2 fadd _ _) as [noise|]; cbn [trace rng_pos].
  2:{ intros [= <- <-]. eexists [_; _]. rewrite <- app_assoc.
      repeat split; [cbn; lia|repeat constructor]. }
  destruct (step _ _ _ _) as [stepped|]; cbn [trace rng_pos].
  1:{ discriminate. }
  intros [= <- <-]. eexists [_; _; _]. rewrite <- !app_assoc.
  repeat split; [cbn; lia|repeat constructor].
Qed.

(** X8: when an iteration raises, the pass raises the same exception and
    stops there: the timesteps after the failing one are not processed,
    whatever they are, and the failing iteration added at most its own three
    calls to the trace. *)
Theorem forward_loop_stops_at_failure ehs ts1 t ts2 self latents w r1 w1 e w2 :
  Schedulers.forward_loop self ehs latents ts1 w = (Ok r1, w1) →
  Schedulers.forward_body r1.2 ehs r1.1 t w1 = (Raise e, w2) →
  Schedulers.forward_loop self ehs latents (ts1 ++ t :: ts2) w = (Raise e, w2)
  ∧ ∃ evs, trace w2 = trace w1 ++ evs ∧ (length evs ≤ 3)%nat
           ∧ Forall (λ e, is_loop_event e = true) evs.
Proof.
  intros E1 E2. split; [|now apply forward_body_raise_inv in E2].
  rewrite forward_loop_app. unfold bind at 1. rewrite E1.
  cbn [Schedulers.forward_loop]. unfold bind. now rewrite E2.
Qed.

(** X10: with no timesteps (a timestep tensor of zero rows) a forward pass
    calls neither the network nor [scale_model_input] nor [scheduler.step]:
    it reads [init_noise_sigma] and returns the latents multiplied by it,
    with the module unchanged. *)
Theorem forward_without_timesteps self latents ehs w rest :
  shape (timesteps (scheduler self)) = 0%nat :: rest →
  Schedulers.Scheduler_forward self latents ehs w
  = (Ok (tensor_map (λ x, fmul x (init_noise_sigma (scheduler self))) latents, self),
     mkWorld (trace w ++ [EvInitNoiseSigma]) (rng_pos w)).
Proof.
  intros Hs. unfold Schedulers.Scheduler_forward, bind, emit, lift, tensor_iter.
  rewrite Hs. reflexivity.
Qed.

Lemma torch_cat_twice_scalar {A} (x : Tensor A) :
  shape x = [] →
  torch_cat (replicate 2 x)
  = Raise (RuntimeError "zero-dimensional tensor cannot be concatenated").
Proof.
  intros Hs. unfold torch_cat. cbn [replicate].
  rewrite !filter_cons, filter_nil. unfold is_legacy_empty. rewrite Hs.
  rewrite (bool_decide_false ([] = [0%nat])) by discriminate.
  destruct (decide (false = false)) as [_|Hn]; [|now destruct Hn].
  unfold tail_shape. rewrite Hs. reflexivity.
Qed.

(** X11: latents without any dimension (a 0-d tensor) make the first
    iteration raise at [torch.cat], before any call of the scheduler or of
    the network: the pass has only read [init_noise_sigma]. *)
Theorem forward_rejects_scalar_latents self latents ehs w k rest :
  shape latents = [] →
  shape (timesteps (scheduler self)) = S k :: rest →
  ∃ msg,
    Schedulers.Scheduler_forward self latents ehs w
    = (Raise (RuntimeError msg),
       mkWorld (trace w ++ [EvInitNoiseSigma]) (rng_pos w)).
Proof.
  intros Hl Hs. eexists.
  unfold Schedulers.Scheduler_forward, bind, emit, lift, tensor_iter.
  rewrite Hs. cbn [rows fmap list_fmap Schedulers.forward_loop].
  unfold Schedulers.forward_body, bind, lift.
  rewrite torch_cat_twice_scalar by exact Hl. reflexivity.
Qed.

Lemma forward_loop_shapes_agree ehs ts :
  scale_shape_preserving → unet_shape_preserving →
  ∀ self latents w r w',
    Schedulers.forward_loop self ehs latents ts w = (Ok r, w') →
    ∃ evs, trace w' = trace w ++ evs ∧ Forall shapes_agree evs.
Proof.
  intros Hsc Hun. induction ts as [|t ts IH]; intros self latents w r w' E.
  - cbn in E. injection E as <- <-. exists []. now rewrite app_nil_r.
  - cbn [Schedulers.forward_loop] in E.
    apply bind_inv_ok in E as (r1 & w1 & Eb & E).
    apply forward_body_inv in Eb
      as (lmi & scaled & out & u & c & diff & noise & stepped
          & E1 & E2 & E3 & E4 & E5 & E6 & E7 & -> & ->).
    apply IH in E as (evs & Ht & Hall).
    apply torch_cat_twice_shape in E1 as (n & rest & Hl & Hlmi).
    assert (Hx : shape scaled.1 = (n + n)%nat :: rest).
    { destruct scaled as [y st']. rewrite <- Hlmi. eapply Hsc. exact E2. }
    assert (Ho : shape out = (n + n)%nat :: rest).
    { rewrite <- Hx. eapply Hun. exact E3. }
    destruct (torch_chunk_even_shape _ _ _ _ _ Ho E4) as [Hu Hc].
    assert (Hd : shape diff = n :: rest).
    { rewrite <- Hc. eapply tensor_map2_shape_same; [|exact E5]. congruence. }
    assert (Hn : shape noise = n :: rest).
    { rewrite <- Hu. eapply tensor_map2_shape_same; [|exact E6].
      cbn [shape tensor_map]. congruence. }
    eexists. cbn [trace] in Ht. rewrite <- app_assoc in Ht.
    split; [exact Ht|].
    cbn [app]. repeat constructor; cbn [shapes_agree]; [eauto|congruence|exact Hall].
Qed.

(** X12: when [scale_model_input] and the network keep the shape of their
    input, every call of the network in a forward pass gets an even number of
    rows (the duplicated latents), and every call of [scheduler.step] gets a
    noise prediction of exactly the shape of the latents it is to update. *)
Theorem noise_has_the_shape_of_the_latents self latents ehs w r w' :
  scale_shape_preserving → unet_shape_preserving →
  Schedulers.Scheduler_forward self latents ehs w = (Ok r, w') →
  ∃ evs,
    trace w' = trace w ++ EvInitNoiseSigma :: evs
    ∧ Forall shapes_agree evs
    ∧ length (omap step_latents evs) = dim0 (timesteps (scheduler self)).
Proof.
  intros Hsc Hun E. apply Scheduler_forward_inv in E as (ts & Et & E).
  pose proof E as E'.
  apply (forward_loop_shapes_agree ehs ts Hsc Hun) in E as (evs & Ht & Hall).
  apply forward_loop_inv in E'
    as (evs' & Hw' & _ & _ & _ & _ & _ & Hs3 & _).
  rewrite Hw' in Ht. cbn [trace] in Ht. apply app_inv_head in Ht. subst evs'.
  exists evs. rewrite Hw'. cbn [trace]. rewrite <- app_assoc.
  split; [reflexivity|]. split; [exact Hall|].
  apply tensor_iter_length in Et as (m & rest & Hts & <-).
  unfold dim0. rewrite Hts.
  transitivity (length (omap step_timestep evs)); [|now rewrite Hs3, length_fmap].
  clear. induction evs as [|[] evs IH]; cbn; auto.
Qed.

(** X13: a network that returns a single row (no pair of predictions to
    split) makes the iteration raise [ValueError] at the unpacking of
    [chunk(2)], after the calls of [scale_model_input] and of the network:
    [scheduler.step] is not called. *)
Theorem single_row_output_is_rejected self latents ehs t w lmi scaled out rest :
  torch_cat (replicate 2 latents) = Ok lmi →
  scale_model_input lmi (unsqueeze0 t) (scheduler self) = Ok scaled →
  unet_forward (unet self) scaled.1 (unsqueeze0 t) ehs = Ok out →
  shape out = 1%nat :: rest →
  Schedulers.forward_body self ehs latents t w
  = (Raise (ValueError "not enough values to unpack (expected 2)"),
     mkWorld (trace w ++ [EvScaleModelInput lmi (unsqueeze0 t);
                          EvUNetForward scaled.1 (unsqueeze0 t) ehs])
             (rng_pos w)).
Proof.
  intros E1 E2 E3 Hs.
  unfold Schedulers.forward_body, bind, lift, emit, ret.
  rewrite E1, E2. cbn [scheduler unet guidance_scale trace rng_pos].
  rewrite E3. unfold torch_chunk. rewrite Hs.
  cbn. rewrite <- app_assoc. reflexivity.
Qed.

End LoopFurther.

(** ** The runner's script: inputs of the comparison, calls it never makes *)

Section RunnerFurther.
Context {F Time St UNet Vmfb : Type}.
Context {HScalar : Scalar F} {HSched : SchedulerMixin F Time St}
        {HUNet : UNet2DConditionModel F Time UNet}
        {HTools : Toolchain F St UNet Vmfb}.
Implicit Types (w : World F Time) (args : SchedulersRunner.Args).

Lemma getitem_inv_ok {A} (d : gmap string A) key w a w' :
  getitem d key w = (Ok a, w') → d !! key = Some a ∧ w' = w.
Proof.
  unfold getitem. destruct (d !! key); intros [= <- <-]; auto.
Qed.

Lemma read_name_inv_ok {A} name (v : option A) w a w' :
  read_name name v w = (Ok a, w') → v = Some a ∧ w' = w.
Proof. destruct v; intros [= <- <-]; auto. Qed.

Lemma rand_inv_ok (gen : nat → F) sizes w x w' :
  rand gen sizes w = (Ok x, w') → shape x = Z.to_nat <$> sizes.
Proof.
  unfold rand, torch_rand. destruct (forallb _ _); [|discriminate].
  intros [= <- <-]. reflexivity.
Qed.

(** X14: a run of the runner that printed the largest error [err] drew one
    sample and one conditioning tensor of the configured sizes, executed the
    compiled artifact on them, looked the scheduler up in the registry, ran
    the eager loop of that scheduler on the same two tensors, and [err] is
    [largest_error] of the eager output and the artifact's output, in this
    order of arguments. *)
Theorem comparison_is_on_the_same_inputs args w res w' evs err :
  SchedulersRunner.main (St := St) (UNet := UNet) (Vmfb := Vmfb) args w = (res, w') →
  trace w' = trace w ++ evs →
  EvPrintLargestError err ∈ evs →
  ∃ sample ehs sizes runner turbine reg sch torch wa wb,
    SchedulersRunner.encoder_hidden_states_sizes args = Some sizes
    ∧ shape sample = Z.to_nat <$> SchedulersRunner.sample_sizes args
    ∧ shape ehs = Z.to_nat <$> sizes
    ∧ vmfbRunner (SchedulersRunner.device args) (SchedulersRunner.vmfb_path args)
        (SchedulersRunner.external_weight_path args) = Ok runner
    ∧ compiled_scheduler_main runner sample ehs = Ok turbine
    ∧ get_schedulers (SchedulersRunner.hf_model_name args) = Ok reg
    ∧ reg !! SchedulersRunner.scheduler_id args = Some sch
    ∧ SchedulersRunner.run_torch_scheduler (SchedulersRunner.hf_model_name args)
        sch (SchedulersRunner.num_inference_steps args) sample ehs wa
      = (Ok torch, wb)
    ∧ largest_error torch turbine = Ok err.
Proof.
  intros E Ht Hin.
  set (Q := λ e : event F Time, is_error_print e = false).
  assert (HQ : ¬ Q (EvPrintLargestError err)) by discriminate.
  unfold SchedulersRunner.main in E.
  do 5 past Q HQ.
  rewrite bind_ret_unit in E.
  destruct (SchedulersRunner.compare_vs_torch args).
  - do 9 past Q HQ.
    unfold bind, emit, lift in E. injection E as <- <-.
    cbn [trace] in Ht. apply app_inv_head in Ht. subst.
    apply list_elem_of_singleton in Hin. injection Hin as <-.
    apply rand_inv_ok in Em.
    apply read_name_inv_ok in Em1 as [-> ->].
    apply read_name_inv_ok in Em8 as [[= ->] ->].
    apply run_scheduler_inv in Em2 as (runner & Hrun & Hmain & _).
    apply lift_inv_ok in Em6 as [Hreg ->].
    apply getitem_inv_ok in Em7 as [Hid ->].
    apply lift_inv_ok in Em12 as [Herr ->].
    destruct (SchedulersRunner.encoder_hidden_states_sizes args) as [sizes|];
      [|discriminate].
    apply bind_inv_ok in Em0 as (x & wx & Ex & Er).
    apply rand_inv_ok in Ex. unfold ret in Er. injection Er as -> ->.
    exists a, a8, sizes, runner, a2, a6, a7, a9, w6, w10.
    repeat split; assumption.
  - unfold ret in E. injection E as <- <-.
    rewrite <- (app_nil_r (trace w4)) in Ht at 1.
    apply app_inv_head in Ht. subst. now apply elem_of_nil in Hin.
Qed.

(** X15: whatever its arguments and whatever the collaborators do, the
    runner's script never saves weights, traces, compiles, writes a file or
    uploads; and without [--compare_vs_torch] it makes no call of the
    registry, of a scheduler or of the network and computes no error: its
    calls are the two [torch.rand], the load and the execution of the
    artifact and one print. *)
Theorem runner_never_exports args :
  emits (λ e : event F Time, is_export_call e = false)
    (SchedulersRunner.main (St := St) (UNet := UNet) (Vmfb := Vmfb) args)
  ∧ (SchedulersRunner.compare_vs_torch args = false →
     emits (λ e : event F Time, is_scheduler_or_network_call e = false)
       (SchedulersRunner.main (St := St) (UNet := UNet) (Vmfb := Vmfb) args)).
Proof.
  split.
  - unfold SchedulersRunner.main. emits_prog.
  - intros Hc. unfold SchedulersRunner.main, SchedulersRunner.run_scheduler.
    rewrite Hc. emits_solve.
Qed.

(** X16: a negative batch size, height or width (however small: [-1 // 8]
    is [-1]) makes the runner raise the [RuntimeError] of [torch.rand] on its
    first statement: nothing else has been called. *)
Theorem runner_rejects_negative_sizes args w :
  (SchedulersRunner.batch_size args < 0 ∨ SchedulersRunner.height args < 0
   ∨ SchedulersRunner.width args < 0)%Z →
  SchedulersRunner.main (St := St) (UNet := UNet) (Vmfb := Vmfb) args w
  = (Raise (RuntimeError "Trying to create tensor with negative dimension"),
     mkWorld (trace w ++ [EvTorchRand (SchedulersRunner.sample_sizes args)])
             (rng_pos w)).
Proof.
  intros Hneg. unfold SchedulersRunner.main. unfold bind at 1.
  unfold rand, torch_rand, SchedulersRunner.sample_sizes.
  replace (forallb _ _) with false; [reflexivity|].
  symmetry. cbn [forallb]. rewrite !andb_false_iff, !Z.leb_gt.
  destruct Hneg as [H|[H|H]].
  - left. exact H.
  - right. right. left. apply Z.div_lt_upper_bound; lia.
  - right. right. right. left. apply Z.div_lt_upper_bound; lia.
Qed.

(** X17: a height (or width) from 0 to 7 is no error: its quotient by 8 is
    0, the exporter declares a sample with a dimension of size 0, and the
    sample the runner draws has that shape and no element. *)
Theorem small_image_gives_empty_latent args (gen : nat → F) pos :
  (0 ≤ SchedulersRunner.batch_size args)%Z →
  (0 ≤ SchedulersRunner.height args < 8 ∧ 0 ≤ SchedulersRunner.width args
   ∨ 0 ≤ SchedulersRunner.height args ∧ 0 ≤ SchedulersRunner.width args < 8)%Z →
  (∃ h wd, (h = 0 ∨ wd = 0)%Z
     ∧ Schedulers.sample_sizes (SchedulersRunner.batch_size args)
         (SchedulersRunner.height args) (SchedulersRunner.width args)
       = [SchedulersRunner.batch_size args; 4; h; wd]%Z)
  ∧ ∃ h wd, (h = 0 ∨ wd = 0)%nat
      ∧ torch_rand gen pos (SchedulersRunner.sample_sizes args)
        = Ok (mkTensor [Z.to_nat (SchedulersRunner.batch_size args); 4; h; wd]%nat []).
Proof.
  intros Hb Hhw.
  assert (Hq : (0 ≤ SchedulersRunner.height args `div` 8
                ∧ 0 ≤ SchedulersRunner.width args `div` 8
                ∧ (SchedulersRunner.height args `div` 8 = 0
                   ∨ SchedulersRunner.width args `div` 8 = 0))%Z).
  { destruct Hhw as [[Hh Hw]|[Hh Hw]].
    - split; [apply Z.div_pos; lia|]. split; [apply Z.div_pos; lia|].
      left. apply Z.div_small. lia.
    - split; [apply Z.div_pos; lia|]. split; [apply Z.div_pos; lia|].
      right. apply Z.div_small. lia. }
  destruct Hq as (Hh0 & Hw0 & Hz). split.
  - eexists _, _. split; [exact Hz|reflexivity].
  - exists (Z.to_nat (SchedulersRunner.height args `div` 8)),
           (Z.to_nat (SchedulersRunner.width args `div` 8)).
    split; [destruct Hz as [-> | ->]; auto|].
    rewrite torch_rand_nonneg.
    + unfold SchedulersRunner.sample_sizes. cbn [fmap list_fmap].
      f_equal. f_equal.
      replace (numel _) with 0%nat; [reflexivity|].
      rewrite !numel_cons. destruct Hz as [-> | ->]; cbn; lia.
    + unfold SchedulersRunner.sample_sizes. repeat constructor; lia.
Qed.

Lemma conditioning_sizes_nonneg args sizes :
  SchedulersRunner.encoder_hidden_states_sizes args = Some sizes →
  Forall (λ z, (0 ≤ z)%Z) sizes.
Proof.
  unfold SchedulersRunner.encoder_hidden_states_sizes.
  destruct (String.eqb _ _); [|destruct (String.eqb _ _)]; intros [= <-];
    repeat constructor; lia.
Qed.

(** X19: without [--compare_vs_torch], a run in which the two
    [torch.rand] calls succeed and the artifact loads and returns ends
    normally whatever the artifact returned: the script draws the sample and
    then the conditioning from the generator, loads the artifact, executes it
    on the two tensors, prints, and does nothing else. *)
Theorem runner_without_comparison_ends_normally args w sizes runner out :
  SchedulersRunner.compare_vs_torch args = false →
  SchedulersRunner.encoder_hidden_states_sizes args = Some sizes →
  Forall (λ z, (0 ≤ z)%Z) (SchedulersRunner.sample_sizes args) →
  vmfbRunner (SchedulersRunner.device args) (SchedulersRunner.vmfb_path args)
    (SchedulersRunner.external_weight_path args) = Ok runner →
  compiled_scheduler_main runner (drawn_sample rng (rng_pos w) args)
    (drawn_conditioning rng (rng_pos w) args sizes) = Ok out →
  SchedulersRunner.main (St := St) (UNet := UNet) (Vmfb := Vmfb) args w
  = (Ok tt,
     mkWorld
       (trace w ++
        [EvTorchRand (SchedulersRunner.sample_sizes args);
         EvTorchRand sizes;
         EvVmfbRunner (SchedulersRunner.device args) (SchedulersRunner.vmfb_path args);
         EvCompiledMain (drawn_sample rng (rng_pos w) args)
           (drawn_conditioning rng (rng_pos w) args sizes);
         EvPrint "TURBINE OUTPUT:"])
       (rng_pos w + numel (Z.to_nat <$> SchedulersRunner.sample_sizes args)
        + numel (Z.to_nat <$> sizes))).
Proof.
  intros Hc Hsz Hs Hrun Hmain.
  pose proof (conditioning_sizes_nonneg _ _ Hsz) as Hs2.
  unfold SchedulersRunner.main, SchedulersRunner.run_scheduler.
  rewrite Hc, Hsz.
  unfold bind, rand, read_name, emit, lift, ret.
  rewrite (torch_rand_nonneg _ _ _ Hs). cbn [trace rng_pos shape].
  rewrite (torch_rand_nonneg _ _ _ Hs2). cbn [trace rng_pos shape].
  rewrite Hrun. cbn [trace rng_pos].
  unfold drawn_sample, drawn_conditioning in Hmain. cbv zeta in Hmain.
  rewrite Hmain. cbn [trace rng_pos]. rewrite <- !app_assoc. reflexivity.
Qed.

(** X20: when the artifact fails to load, or loads and raises when it is
    executed, the script raises that exception right there, with or without
    [--compare_vs_torch]: nothing is printed, the registry is not read and
    the eager loop is not run. *)
Theorem runner_stops_when_artifact_fails args w sizes e :
  SchedulersRunner.encoder_hidden_states_sizes args = Some sizes →
  Forall (λ z, (0 ≤ z)%Z) (SchedulersRunner.sample_sizes args) →
  (vmfbRunner (Vmfb := Vmfb) (SchedulersRunner.device args)
     (SchedulersRunner.vmfb_path args)
     (SchedulersRunner.external_weight_path args) = Raise e
   ∨ ∃ runner,
       vmfbRunner (SchedulersRunner.device args) (SchedulersRunner.vmfb_path args)
         (SchedulersRunner.external_weight_path args) = Ok runner
       ∧ compiled_scheduler_main runner (drawn_sample rng (rng_pos w) args)
           (drawn_conditioning rng (rng_pos w) args sizes) = Raise e) →
  ∃ w' evs,
    SchedulersRunner.main (St := St) (UNet := UNet) (Vmfb := Vmfb) args w
    = (Raise e, w')
    ∧ trace w'
      = trace w ++
        [EvTorchRand (SchedulersRunner.sample_sizes args);
         EvTorchRand sizes;
         EvVmfbRunner (SchedulersRunner.device args) (SchedulersRunner.vmfb_path args)]
        ++ evs
    ∧ (evs = []
       ∨ evs = [EvCompiledMain (drawn_sample rng (rng_pos w) args)
                  (drawn_conditioning rng (rng_pos w) args sizes)]).
Proof.
  intros Hsz Hs Hfail.
  pose proof (conditioning_sizes_nonneg _ _ Hsz) as Hs2.
  unfold SchedulersRunner.main, SchedulersRunner.run_scheduler.
  rewrite Hsz.
  unfold bind, rand, read_name, emit, lift, ret.
  rewrite (torch_rand_nonneg _ _ _ Hs). cbn [trace rng_pos shape].
  rewrite (torch_rand_nonneg _ _ _ Hs2). cbn [trace rng_pos shape].
  destruct Hfail as [Hrun|(runner & Hrun & Hmain)]; rewrite Hrun; cbn [trace rng_pos].
  - eexists _, []. split; [reflexivity|]. cbn [trace].
    rewrite <- !app_assoc. split; [reflexivity|]. now left.
  - unfold drawn_sample, drawn_conditioning in Hmain. cbv zeta in Hmain.
    rewrite Hmain. eexists _, [_]. split; [reflexivity|]. cbn [trace].
    rewrite <- !app_assoc. split; [reflexivity|]. now right.
Qed.

End RunnerFurther.

(** ** Duplicating and splitting *)

(** X18: [torch.cat([t] * 2).chunk(2)] is [t, t] for every well-formed
    tensor [t] with at least one dimension: the split of the loop undoes its
    duplication of the latents. *)
Theorem duplicate_then_split {A} (x : Tensor A) n rest :
  shape x = n :: rest → tensor_wf x →
  ∃ doubled,
    torch_cat (replicate 2 x) = Ok doubled
    ∧ shape doubled = (n + n)%nat :: rest
    ∧ torch_chunk doubled 2 = Ok [x; x].
Proof.
  intros Hs Hwf. eexists. split; [exact (torch_cat_twice x n rest Hs Hwf)|].
  split; [reflexivity|].
  assert (Hlen : length (data x) = (n * numel rest)%nat).
  { unfold tensor_wf in Hwf. now rewrite Hs in Hwf. }
  rewrite (torch_chunk_even _ n rest); cbn [shape data].
  - rewrite <- Hlen, take_app_length, drop_app_length.
    destruct x as [s d]. cbn in Hs. subst s. reflexivity.
  - reflexivity.
  - unfold tensor_wf. cbn [shape data]. rewrite length_app, numel_cons. lia.
Qed.

(** ** The further properties on the toy model *)

Lemma exporter_writes_traced_module_witness :
  Schedulers.main (toy_export_args 2 None) (world0 (F := float) (Time := Z))
  = (Ok tt,
     mkWorld
       [EvGetSchedulers "CompVis/stable-diffusion-v1-4";
        EvSetTimesteps 2;
        EvUNetFromPretrained "CompVis/stable-diffusion-v1-4";
        EvSaveExternalWeights;
        EvGetMlirModule [1; 4; 1; 1]%Z [2; 77; 768]%Z "IMPORT";
        EvOpenFile "CompVis_stable-diffusion-v1-4-scheduler.mlir";
        EvWriteFile "CompVis_stable-diffusion-v1-4-scheduler.mlir" "module {}";
        EvPrint "Saved to"] 0).
Proof.
  assert (Hid : Toy.registry !! "PNDM" = Some (Toy.mkSched Toy.PLMS [] 0))
    by (vm_compute; reflexivity).
  assert (Hv : (None : option string) ≠ Some "vmfb") by discriminate.
  exact (exporter_writes_traced_module (toy_export_args 2 None) world0
           Toy.registry (Toy.mkSched Toy.PLMS [] 0)
           (Toy.mkSched Toy.PLMS (Toy.plan Toy.PLMS 2) 0) tt "module {}"
           eq_refl Hid eq_refl eq_refl eq_refl eq_refl Hv).
Defined.

Lemma exporter_vmfb_ends_in_type_error_witness :
  Schedulers.main (toy_export_args 2 (Some "vmfb")) (world0 (F := float) (Time := Z))
  = (Raise (TypeError "write() argument must be str, not None"),
     mkWorld
       [EvGetSchedulers "CompVis/stable-diffusion-v1-4";
        EvSetTimesteps 2;
        EvUNetFromPretrained "CompVis/stable-diffusion-v1-4";
        EvSaveExternalWeights;
        EvGetMlirModule [1; 4; 1; 1]%Z [2; 77; 768]%Z "IMPORT";
        EvCompileToVmfb;
        EvOpenFile "CompVis_stable-diffusion-v1-4-scheduler.mlir"] 0).
Proof.
  assert (Hid : Toy.registry !! "PNDM" = Some (Toy.mkSched Toy.PLMS [] 0))
    by (vm_compute; reflexivity).
  exact (exporter_vmfb_ends_in_type_error (toy_export_args 2 (Some "vmfb")) world0
           Toy.registry (Toy.mkSched Toy.PLMS [] 0)
           (Toy.mkSched Toy.PLMS (Toy.plan Toy.PLMS 2) 0) tt "module {}"
           eq_refl Hid eq_refl eq_refl eq_refl eq_refl eq_refl eq_refl).
Defined.

Lemma exporter_aborts_before_tracing_witness :
  ∃ w',
    Schedulers.main (toy_export_args 0 None) (world0 (F := float) (Time := Z))
    = (Raise (ValueError "num_inference_steps must be positive"), w')
    ∧ ∃ evs, trace w' = evs ∧ Forall (λ e, is_export_call e = false) evs.
Proof.
  assert (Hid : Toy.registry !! "PNDM" = Some (Toy.mkSched Toy.PLMS [] 0))
    by (vm_compute; reflexivity).
  destruct (exporter_aborts_before_tracing (F := float) (Time := Z)
              (St := Toy.sched) (UNet := unit) (Vmfb := unit)
              (HTools := Toy.toy_toolchain)
              (toy_export_args 0 None) world0 Toy.registry
              (Toy.mkSched Toy.PLMS [] 0)
              (ValueError "num_inference_steps must be positive")
              eq_refl Hid)
    as (w' & E & _ & evs & Ht & Hall); [left; reflexivity|].
  exists w'. split; [exact E|]. exists evs. split; [exact Ht|exact Hall].
Defined.

Lemma export_scheduler_branches_witness :
  ∃ evs,
    trace toy_export_run.2 = evs
    ∧ existsb is_compile evs = true ∧ existsb is_upload evs = true.
Proof.
  assert (E : toy_export_run = (Ok None, toy_export_run.2))
    by (vm_compute; reflexivity).
  destruct (export_scheduler_branches (Toy.module0 Toy.PLMS 2)
              "CompVis/stable-diffusion-v1-4" 1 8 8 None (Some "vmfb") None None
              None None None true world0 None toy_export_run.2 E)
    as (text & evs & _ & Ht & _ & _ & Hc & Hu).
  exists evs. split; [exact Ht|]. split; [now apply Hc|now apply Hu].
Defined.

Lemma export_scheduler_upload_destination_witness :
  ∃ rest,
    trace toy_export_run.2
    = [EvSaveExternalWeights;
       EvGetMlirModule [1; 4; 1; 1]%Z [2; 77; 768]%Z "IMPORT";
       EvOpenFile "CompVis_stable-diffusion-v1-4-scheduler.mlir";
       EvWriteFile "CompVis_stable-diffusion-v1-4-scheduler.mlir" "module {}";
       EvUpload "/CompVis_stable-diffusion-v1-4-scheduler.mlir"
         "CompVis-stable-diffusion-v1-4_scheduler/CompVis-stable-diffusion-v1-4_scheduler.mlir"]
      ++ rest.
Proof.
  assert (E : toy_export_run = (Ok None, toy_export_run.2))
    by (vm_compute; reflexivity).
  destruct (export_scheduler_upload_destination (Toy.module0 Toy.PLMS 2)
              "CompVis/stable-diffusion-v1-4" 1 8 8 None (Some "vmfb") None None
              None None None world0 None toy_export_run.2 E)
    as (text & name & rest & -> & Hm & Ht & _).
  injection Hm as <-. exists rest. exact Ht.
Defined.

Lemma forward_loop_splits_witness :
  Schedulers.forward_loop (Toy.module0 Toy.PLMS 2) Toy.conditioning0 Toy.latents0
    ([mkTensor [] [500%Z]] ++ [mkTensor [] [0%Z]; mkTensor [] [0%Z]]) Toy.world1
  = Schedulers.forward_loop
      (result_or (Toy.latents0, Toy.module0 Toy.PLMS 2) first_pass.1).2
      Toy.conditioning0
      (result_or (Toy.latents0, Toy.module0 Toy.PLMS 2) first_pass.1).1
      [mkTensor [] [0%Z]; mkTensor [] [0%Z]] first_pass.2.
Proof.
  assert (E : Schedulers.forward_loop (Toy.module0 Toy.PLMS 2) Toy.conditioning0
                Toy.latents0 [mkTensor [] [500%Z]] Toy.world1
              = (Ok (result_or (Toy.latents0, Toy.module0 Toy.PLMS 2) first_pass.1),
                 first_pass.2))
    by (vm_compute; reflexivity).
  exact (proj1 (forward_loop_splits Toy.conditioning0 [mkTensor [] [500%Z]]
                  [mkTensor [] [0%Z]; mkTensor [] [0%Z]] (Toy.module0 Toy.PLMS 2)
                  Toy.latents0 Toy.world1 _ _ E)).
Defined.

Lemma forward_loop_stops_at_failure_witness :
  ∃ msg,
    Schedulers.forward_loop (Toy.module0 Toy.PLMS 2) Toy.conditioning0
      scalar_latents ([] ++ mkTensor [] [500%Z] :: [mkTensor [] [0%Z]]) Toy.world1
    = (Raise (RuntimeError msg), Toy.world1).
Proof.
  assert (E1 : Schedulers.forward_loop (Toy.module0 Toy.PLMS 2) Toy.conditioning0
                 scalar_latents [] Toy.world1
               = (Ok (scalar_latents, Toy.module0 Toy.PLMS 2), Toy.world1))
    by reflexivity.
  assert (E2 : Schedulers.forward_body (Toy.module0 Toy.PLMS 2) Toy.conditioning0
                 scalar_latents (mkTensor [] [500%Z]) Toy.world1
               = (Raise (RuntimeError "zero-dimensional tensor cannot be concatenated"),
                  Toy.world1))
    by (vm_compute; reflexivity).
  eexists.
  exact (proj1 (forward_loop_stops_at_failure Toy.conditioning0 []
                  (mkTensor [] [500%Z]) [mkTensor [] [0%Z]] (Toy.module0 Toy.PLMS 2)
                  scalar_latents Toy.world1
                  (scalar_latents, Toy.module0 Toy.PLMS 2) Toy.world1 _ Toy.world1
                  E1 E2)).
Defined.

Lemma forward_without_timesteps_witness :
  Schedulers.Scheduler_forward
    (mkSchedulerModule (Toy.mkSched Toy.PLMS [] 0) tt float_7_5)
    Toy.latents0 Toy.conditioning0 Toy.world1
  = (Ok (tensor_map (λ x, PrimFloat.mul x 0x1p+0%float) Toy.latents0,
         mkSchedulerModule (Toy.mkSched Toy.PLMS [] 0) tt float_7_5),
     mkWorld (trace Toy.world1 ++ [EvInitNoiseSigma]) (rng_pos Toy.world1)).
Proof.
  exact (forward_without_timesteps
           (mkSchedulerModule (Toy.mkSched Toy.PLMS [] 0) tt float_7_5)
           Toy.latents0 Toy.conditioning0 Toy.world1 [] eq_refl).
Defined.

Lemma forward_rejects_scalar_latents_witness :
  ∃ msg,
    Schedulers.Scheduler_forward (Toy.module0 Toy.PLMS 2) scalar_latents
      Toy.conditioning0 Toy.world1
    = (Raise (RuntimeError msg),
       mkWorld (trace Toy.world1 ++ [EvInitNoiseSigma]) (rng_pos Toy.world1)).
Proof.
  exact (forward_rejects_scalar_latents (Toy.module0 Toy.PLMS 2) scalar_latents
           Toy.conditioning0 Toy.world1 2 [] eq_refl eq_refl).
Defined.

Lemma noise_has_the_shape_of_the_latents_witness :
  ∃ evs,
    trace Toy.world2 = trace Toy.world1 ++ EvInitNoiseSigma :: evs
    ∧ Forall shapes_agree evs
    ∧ length (omap step_latents evs) = 3%nat.
Proof.
  assert (Hf : Schedulers.Scheduler_forward (Toy.module0 Toy.PLMS 2)
                 Toy.latents0 Toy.conditioning0 Toy.world1
               = (Ok Toy.forward_result, Toy.world2))
    by (vm_compute; reflexivity).
  exact (noise_has_the_shape_of_the_latents _ _ _ _ _ _
           toy_scale_shape_preserving toy_unet_shape_preserving Hf).
Defined.

Lemma single_row_output_is_rejected_witness :
  (Schedulers.forward_body (HUNet := single_row_unet) (Toy.module0 Toy.PLMS 2)
     Toy.conditioning0 Toy.latents0 (mkTensor [] [500%Z]) Toy.world1).1
  = Raise (ValueError "not enough values to unpack (expected 2)").
Proof.
  assert (E1 : torch_cat (replicate 2 Toy.latents0)
               = Ok (mkTensor [2; 4; 1; 1]%nat (data Toy.latents0 ++ data Toy.latents0)))
    by (vm_compute; reflexivity).
  rewrite (single_row_output_is_rejected (HScalar := Toy.float_scalar)
             (HSched := Toy.toy_scheduler) (HUNet := single_row_unet)
             (Toy.module0 Toy.PLMS 2) Toy.latents0 Toy.conditioning0
             (mkTensor [] [500%Z]) Toy.world1 _
             (mkTensor [2; 4; 1; 1]%nat (data Toy.latents0 ++ data Toy.latents0),
              Toy.mkSched Toy.PLMS (Toy.plan Toy.PLMS 2) 0)
             _ [4; 1; 1]%nat E1 eq_refl eq_refl eq_refl).
  reflexivity.
Defined.

Lemma comparison_is_on_the_same_inputs_witness :
  ∃ sample ehs turbine torch,
    shape sample = [1; 4; 1; 1]%nat
    ∧ shape ehs = [2; 77; 768]%nat
    ∧ compiled_scheduler_main tt sample ehs = Ok turbine
    ∧ largest_error torch turbine = Ok 0x1.57p-1%float.
Proof.
  set (run := SchedulersRunner.main (Toy.runner_args "PNDM" 3 true 1)
                (world0 (F := float) (Time := Z))).
  assert (Hl : last (trace run.2) = Some (EvPrintLargestError 0x1.57p-1%float))
    by (vm_compute; reflexivity).
  assert (Hr : SchedulersRunner.main (Toy.runner_args "PNDM" 3 true 1)
                 (world0 (F := float) (Time := Z)) = (run.1, run.2))
    by (subst run; apply surjective_pairing).
  clearbody run.
  destruct (comparison_is_on_the_same_inputs
              (Toy.runner_args "PNDM" 3 true 1) world0 run.1 run.2 (trace run.2)
              0x1.57p-1%float Hr eq_refl (last_Some_elem_of _ _ Hl))
    as (sample & ehs & sizes & [] & turbine & reg & sch & torch & wa & wb
        & Hsz & Hs & He & _ & Hmain & _ & _ & _ & Herr).
  injection Hsz as <-.
  exists sample, ehs, turbine, torch. repeat split; assumption.
Defined.

Lemma runner_rejects_negative_sizes_witness :
  SchedulersRunner.main (Toy.runner_args "PNDM" 2 false (-1))
    (world0 (F := float) (Time := Z))
  = (Raise (RuntimeError "Trying to create tensor with negative dimension"),
     mkWorld [EvTorchRand [-1; 4; 1; 1]%Z] 0).
Proof.
  assert (Hn : (SchedulersRunner.batch_size (Toy.runner_args "PNDM" 2 false (-1)) < 0
                ∨ SchedulersRunner.height (Toy.runner_args "PNDM" 2 false (-1)) < 0
                ∨ SchedulersRunner.width (Toy.runner_args "PNDM" 2 false (-1)) < 0)%Z)
    by (left; reflexivity).
  exact (runner_rejects_negative_sizes (St := Toy.sched) (UNet := unit) (Vmfb := unit)
           (Toy.runner_args "PNDM" 2 false (-1)) world0 Hn).
Defined.

Lemma small_image_gives_empty_latent_witness :
  ∃ h wd, (h = 0 ∨ wd = 0)%nat
    ∧ torch_rand (λ _, 0x1p-1%float) 0
        (SchedulersRunner.sample_sizes
           (SchedulersRunner.mkArgs "PNDM" 2 "" "" false
              "CompVis/stable-diffusion-v1-4" None "local-task" 1 4 8))
      = Ok (mkTensor [1; 4; h; wd]%nat []).
Proof.
  assert (Hb : (0 ≤ 1)%Z) by lia.
  assert (Hhw : (0 ≤ 4 < 8 ∧ 0 ≤ 8 ∨ 0 ≤ 4 ∧ 0 ≤ 8 < 8)%Z) by lia.
  exact (proj2 (small_image_gives_empty_latent
                  (SchedulersRunner.mkArgs "PNDM" 2 "" "" false
                     "CompVis/stable-diffusion-v1-4" None "local-task" 1 4 8)
                  (λ _, 0x1p-1%float) 0%nat Hb Hhw)).
Defined.

Lemma duplicate_then_split_witness :
  ∃ doubled,
    torch_cat (replicate 2 Toy.latents0) = Ok doubled
    ∧ shape doubled = [2; 4; 1; 1]%nat
    ∧ torch_chunk doubled 2 = Ok [Toy.latents0; Toy.latents0].
Proof.
  exact (duplicate_then_split Toy.latents0 1 [4; 1; 1]%nat eq_refl eq_refl).
Defined.

Lemma runner_without_comparison_ends_normally_witness :
  (SchedulersRunner.main (Toy.runner_args "PNDM" 2 false 1)
     (world0 (F := float) (Time := Z))).1 = Ok tt.
Proof.
  assert (Hs : Forall (λ z, (0 ≤ z)%Z)
                 (SchedulersRunner.sample_sizes (Toy.runner_args "PNDM" 2 false 1)))
    by (repeat constructor; vm_compute; discriminate).
  assert (Hm : compiled_scheduler_main tt
                 (drawn_sample rng 0 (Toy.runner_args "PNDM" 2 false 1))
                 (drawn_conditioning rng 0 (Toy.runner_args "PNDM" 2 false 1)
                    [2; 77; 768]%Z)
               = Ok (mkTensor [1; 4; 1; 1]%nat
                       (data (result_or Toy.latents0
                          (Toy.toy_compiled_main
                             (drawn_sample rng 0 (Toy.runner_args "PNDM" 2 false 1))
                             (drawn_conditioning rng 0
                                (Toy.runner_args "PNDM" 2 false 1) [2; 77; 768]%Z))))))
    by (vm_compute; reflexivity).
  rewrite (runner_without_comparison_ends_normally (HScalar := Toy.float_scalar)
             (HSched := Toy.toy_scheduler) (HUNet := Toy.toy_unet)
             (HTools := Toy.toy_toolchain)
             (Toy.runner_args "PNDM" 2 false 1) world0 [2; 77; 768]%Z tt _
             eq_refl eq_refl Hs eq_refl Hm).
  reflexivity.
Defined.

Lemma runner_stops_when_artifact_fails_witness :
  ∃ w',
    SchedulersRunner.main (HTools := missing_artifact_toolchain)
      (Toy.runner_args "PNDM" 2 true 1) (world0 (F := float) (Time := Z))
    = (Raise (RuntimeError "no such file"), w')
    ∧ ∃ evs, trace w' = [EvTorchRand [1; 4; 1; 1]%Z; EvTorchRand [2; 77; 768]%Z;
                         EvVmfbRunner "local-task" ""] ++ evs.
Proof.
  assert (Hs : Forall (λ z, (0 ≤ z)%Z)
                 (SchedulersRunner.sample_sizes (Toy.runner_args "PNDM" 2 true 1)))
    by (repeat constructor; vm_compute; discriminate).
  destruct (runner_stops_when_artifact_fails (HScalar := Toy.float_scalar)
              (HSched := Toy.toy_scheduler) (HUNet := Toy.toy_unet)
              (HTools := missing_artifact_toolchain)
              (Toy.runner_args "PNDM" 2 true 1) world0 [2; 77; 768]%Z
              (RuntimeError "no such file") eq_refl Hs)
    as (w' & evs & E & Ht & _); [left; reflexivity|].
  exists w'. split; [exact E|]. exists evs. exact Ht.
Defined.
